(** * Adversarial autoencoder: the orchestrator of [aae.py]

    A shallow embedding of the class [AAE] (graph assembly, the three losses,
    the three optimisation steps, the training and inference entry points)
    and the properties of its specification.

    What the embedding fixes and what it takes as a parameter:
    - a TensorFlow tensor node is a function of the variable store and of the
      feed dictionary; evaluating a node may raise;
    - the object [self] is its attribute dictionary, so that reading an
      attribute that was never assigned raises [AttributeError];
    - in the graph, scalars are real numbers closed under the IEEE special
      values (not-a-number and the two infinities); arithmetic on finite
      values is exact: rounding, underflow, overflow and signed zeros of
      [float32] are not modelled there;
    - the reconstruction loss is also given on [float32] values, in the
      arithmetic of IEEE 754 binary32 that the standard library specifies:
      its sign and its zeros are settled there;
    - the network bodies ([models.py]), the constant [TINY] ([utils.py]),
      automatic differentiation, the Adam update rule and numpy's sampler are
      parameters of the development. *)

From Stdlib Require Import Reals Lra ZArith.
From Stdlib Require SpecFloat.
From stdpp Require Import gmap strings list.

Open Scope R_scope.

(** ** Scalars *)

Inductive fval : Type :=
| NaN
| PInf
| NInf
| Finite (r : R).

Definition is_finite (x : fval) : Prop :=
  match x with Finite _ => True | _ => False end.


(** Sign of a real, as the three-way comparison with zero. *)
Inductive sgn : Type := Neg | Zero | Pos.

Definition Rsgn (r : R) : sgn :=
  match total_order_T r 0 with
  | inleft (left _) => Neg
  | inleft (right _) => Zero
  | inright _ => Pos
  end.

Definition signed_inf (s : sgn) : fval :=
  match s with Neg => NInf | Zero => NaN | Pos => PInf end.

Definition sgn_opp (s : sgn) : sgn :=
  match s with Neg => Pos | Zero => Zero | Pos => Neg end.

Definition fneg (x : fval) : fval :=
  match x with
  | NaN => NaN
  | PInf => NInf
  | NInf => PInf
  | Finite r => Finite (- r)
  end.

Definition fadd (x y : fval) : fval :=
  match x, y with
  | NaN, _ | _, NaN => NaN
  | PInf, NInf | NInf, PInf => NaN
  | PInf, _ | _, PInf => PInf
  | NInf, _ | _, NInf => NInf
  | Finite a, Finite b => Finite (a + b)
  end.

Definition fsub (x y : fval) : fval := fadd x (fneg y).

Definition fmul (x y : fval) : fval :=
  match x, y with
  | NaN, _ | _, NaN => NaN
  | Finite a, Finite b => Finite (a * b)
  | PInf, PInf | NInf, NInf => PInf
  | PInf, NInf | NInf, PInf => NInf
  | PInf, Finite a | Finite a, PInf => signed_inf (Rsgn a)
  | NInf, Finite a | Finite a, NInf => signed_inf (sgn_opp (Rsgn a))
  end.

Definition fdiv (x y : fval) : fval :=
  match x, y with
  | NaN, _ | _, NaN => NaN
  | Finite a, Finite b =>
      match Rsgn b with
      | Zero => signed_inf (Rsgn a)
      | _ => Finite (a / b)
      end
  | Finite _, (PInf | NInf) => Finite 0
  | (PInf | NInf), (PInf | NInf) => NaN
  | PInf, Finite b =>
      match Rsgn b with Neg => NInf | _ => PInf end
  | NInf, Finite b =>
      match Rsgn b with Neg => PInf | _ => NInf end
  end.

(** [tf.log] on one element: the logarithm of zero is minus infinity, of a
    negative number not-a-number. *)
Definition flog (x : fval) : fval :=
  match x with
  | NaN | NInf => NaN
  | PInf => PInf
  | Finite r =>
      match Rsgn r with
      | Pos => Finite (ln r)
      | Zero => NInf
      | Neg => NaN
      end
  end.

(** [tf.sigmoid] on one element: 1 / (1 + exp (-x)), saturating at the
    infinities. *)
Definition fsigmoid (x : fval) : fval :=
  match x with
  | NaN => NaN
  | PInf => Finite 1
  | NInf => Finite 0
  | Finite r => Finite (/ (1 + exp (- r)))
  end.

Definition fsquare (x : fval) : fval := fmul x x.

Definition of_nat (n : nat) : fval := Finite (INR n).

(** ** Exceptions *)

Inductive exn : Type :=
| AttributeError (attr : string)
| TypeError (attr : string)
| ValueError (what : string)
| InvalidArgumentError (what : string)
| FailedPreconditionError (var : string).

Inductive result (A : Type) : Type :=
| Ok (a : A)
| Raise (e : exn).
Arguments Ok {A} a.
Arguments Raise {A} e.

#[global] Instance result_ret : MRet result := fun A a => Ok a.

#[global] Instance result_bind : MBind result := fun A B k m =>
  match m with
  | Ok a => k a
  | Raise e => Raise e
  end.

Fixpoint mapM {A B} (f : A → result B) (l : list A) : result (list B) :=
  match l with
  | [] => Ok []
  | a :: l' => b ← f a; bs ← mapM f l'; Ok (b :: bs)
  end.

(** ** Tensors: rank 1 and rank 2 *)

Abbreviation vector := (list fval).
Abbreviation matrix := (list (list fval)).

Definition has_shape (n m : nat) (t : matrix) : Prop :=
  length t = n ∧ Forall (fun row => length row = m) t.



(** The computations of the framework on values. A tensor of rank 2 is the
    list of its rows; one without rows does not record its column count. *)
Module kernel.

Definition map_elems (f : fval → fval) (t : matrix) : matrix :=
  map (map f) t.

(** Broadcasting of one axis: equal lengths pair up, a length of one is
    stretched, anything else is incompatible. *)
Definition bcast {A B} (f : A → A → result B) (xs ys : list A)
  : result (list B) :=
  if (length xs =? length ys)%nat then
    mapM (fun p => f p.1 p.2) (zip xs ys)
  else
    match xs, ys with
    | [x], _ => mapM (f x) ys
    | _, [y] => mapM (fun x => f x y) xs
    | _, _ => Raise (InvalidArgumentError "Incompatible shapes")
    end.

Definition broadcast2 (f : fval → fval → fval) (a b : matrix)
  : result matrix :=
  bcast (bcast (fun x y => Ok (f x y))) a b.

(** Sum of a list of scalars, left to right. *)
Definition sum (l : vector) : fval := foldl fadd (Finite 0) l.

(** Mean of a list of scalars; of nothing it is 0/0. *)
Definition mean (l : vector) : fval :=
  fdiv (sum l) (of_nat (length l)).

End kernel.

(** ** Graph nodes *)

Abbreviation var_store := (gmap string matrix).
Abbreviation feed_dict := (gmap string matrix).

(** A node of the graph is evaluated in a session, against the current
    values of the variables and the values fed to the placeholders. *)
Definition Node (A : Type) : Type := var_store → feed_dict → result A.

Record Placeholder := { ph_name : string; ph_cols : nat }.

Definition Summary : Type := string * fval.

Module tf.

(** [tf.placeholder(tf.float32, shape=(None, cols), name=name)] *)
Definition placeholder (cols : nat) (name : string) : Placeholder :=
  {| ph_name := name; ph_cols := cols |}.

(** Reading a placeholder: it must be fed, with rows of its width. *)
Definition read (p : Placeholder) : Node matrix := fun _ fd =>
  match fd !! ph_name p with
  | None => Raise (InvalidArgumentError (ph_name p))
  | Some t =>
      if forallb (fun row => (length row =? ph_cols p)%nat) t
      then Ok t else Raise (ValueError (ph_name p))
  end.

Definition lift1 {A B} (f : A → B) (x : Node A) : Node B :=
  fun vs fd => a ← x vs fd; Ok (f a).

Definition lift2 {A B C} (f : A → B → result C) (x : Node A) (y : Node B)
  : Node C :=
  fun vs fd => a ← x vs fd; b ← y vs fd; f a b.

Definition square : Node matrix → Node matrix :=
  lift1 (kernel.map_elems fsquare).
Definition sigmoid : Node matrix → Node matrix :=
  lift1 (kernel.map_elems fsigmoid).
Definition log : Node matrix → Node matrix :=
  lift1 (kernel.map_elems flog).

(** [t + c] and [c - t] for a Python float [c]: the scalar is broadcast to
    every element. *)
Definition add_scalar (t : Node matrix) (c : R) : Node matrix :=
  lift1 (kernel.map_elems (fun x => fadd x (Finite c))) t.
Definition scalar_sub (c : R) (t : Node matrix) : Node matrix :=
  lift1 (kernel.map_elems (fun x => fsub (Finite c) x)) t.

(** [a + b] and [a - b] for two tensors, with broadcasting. *)
Definition add : Node matrix → Node matrix → Node matrix :=
  lift2 (kernel.broadcast2 fadd).
Definition subtract : Node matrix → Node matrix → Node matrix :=
  lift2 (kernel.broadcast2 fsub).

(** Unary minus on a scalar tensor. *)
Definition negative : Node fval → Node fval := lift1 fneg.

(** [tf.reduce_sum(t, axis=1)]: one sum per row. *)
Definition reduce_sum_axis1 : Node matrix → Node vector :=
  lift1 (map kernel.sum).

(** [tf.reduce_mean] of a rank-1 tensor. *)
Definition reduce_mean1 : Node vector → Node fval :=
  lift1 kernel.mean.

(** [tf.reduce_mean] of a rank-2 tensor: over all its elements. *)
Definition reduce_mean : Node matrix → Node fval :=
  lift1 (fun t => kernel.mean (concat t)).

(** [tf.summary.scalar(tag, t)] *)
Definition summary_scalar (tag : string) (t : Node fval) : Node Summary :=
  lift1 (fun v => (tag, v)) t.

End tf.

(** ** Sessions, optimisers, writers *)

(** The state of a session: the model variables, and the accumulators that
    optimisers keep next to them. *)
Record Session := { variables : var_store; slots : var_store }.

Definition Operation : Type := Session → feed_dict → result Session.

(** An optimiser is its update rule: from the name of a variable, its
    gradient, its value and the accumulators, the new value and the new
    accumulators; [finish] closes a step. *)
Record Optimizer := {
  apply_dense : string → matrix → matrix → var_store → matrix * var_store;
  finish : var_store → var_store
}.

(** [tf.train.GradientDescentOptimizer(lr)]: value - lr * gradient. *)
Definition GradientDescentOptimizer (lr : R) : Optimizer :=
  {| apply_dense := fun _ g x sl =>
       (zip_with (zip_with (fun xv gv => fsub xv (fmul (Finite lr) gv))) x g,
        sl);
     finish := fun sl => sl |}.

(** The update of the variables of [grads_and_vars], one after the other;
    every variable must have been initialised. *)
Fixpoint apply_gradients (opt : Optimizer) (grads_and_vars : list (matrix * string))
    (sess : Session) : result Session :=
  match grads_and_vars with
  | [] => Ok {| variables := variables sess; slots := finish opt (slots sess) |}
  | (g, v) :: rest =>
      match variables sess !! v with
      | None => Raise (FailedPreconditionError v)
      | Some x =>
          let '(x', sl') := apply_dense opt v g x (slots sess) in
          apply_gradients opt rest
            {| variables := <[v := x']> (variables sess); slots := sl' |}
      end
  end.

(** [sess.run(t, feed_dict)] for one tensor: its value at the current
    variables; the session is returned as it was. *)
Definition run_fetch {A} (sess : Session) (t : Node A) (fd : feed_dict)
  : result (A * Session) :=
  a ← t (variables sess) fd; Ok (a, sess).

(** [sess.run([op, loss, summary], feed_dict)]: the two tensors are evaluated
    on the variables as they are before the update of [op]. *)
Definition run_train (sess : Session) (op : Operation) (loss : Node fval)
    (summary : Node Summary) (fd : feed_dict)
  : result (fval * Summary * Session) :=
  l ← loss (variables sess) fd;
  s ← summary (variables sess) fd;
  sess' ← op sess fd;
  Ok (l, s, sess').

(** A summary writer is the list of what was added to it. *)
Definition FileWriter : Type := list (Summary * Z).

Definition add_summary (writer : FileWriter) (summary : Summary) (global_step : Z)
  : FileWriter :=
  writer ++ [(summary, global_step)].

(** The networks of [models.py]: a callable on values of the variables, and
    the list of the names of the variables it owns. *)
Record Network := {
  call : var_store → matrix → bool → matrix;
  get_variables : list string
}.

Record CondNetwork := {
  ccall : var_store → matrix → matrix → bool → matrix;
  cget_variables : list string
}.

Definition apply_net (net : Network) (x : Node matrix) (is_training : bool)
  : Node matrix :=
  fun vs fd => a ← x vs fd; Ok (call net vs a is_training).

Definition apply_cnet (net : CondNetwork) (z y : Node matrix) (is_training : bool)
  : Node matrix :=
  fun vs fd => a ← z vs fd; b ← y vs fd; Ok (ccall net vs a b is_training).

(** ** What the orchestrator takes from outside

    [TINY] of [utils.py]; the three network classes of [models.py], from
    their constructor arguments; the gradient of a scalar node with respect to
    a variable, at the current values and feeds; the Adam update rule; the
    global random state of numpy and its standard-normal sampler. *)
Class Externals := {
  TINY : R;
  Encoder : nat → Network;
  Decoder : nat → Network;
  Discriminator : nat → nat → CondNetwork;
  gradients : Node fval → string → var_store → feed_dict → matrix;
  AdamOptimizer : R → Optimizer;
  RandomState : Type;
  standard_normal : nat * nat → RandomState → matrix * RandomState
}.

(** ** The object and its attributes *)

Section AAE.

Context `{ext : Externals}.

(** [optimizer.minimize(loss, var_list=var_list)]: the forward pass, the
    gradients with respect to the variables of [var_list] at the current
    values, then the update of exactly those variables. *)
Definition minimize (opt : Optimizer) (loss : Node fval) (var_list : list string)
  : Operation :=
  fun sess fd =>
    _ ← loss (variables sess) fd;
    let grads_and_vars :=
      map (fun v => (gradients loss v (variables sess) fd, v)) var_list in
    apply_gradients opt grads_and_vars sess.

Inductive attr : Type :=
| Dim (n : nat)
| Int (z : Z)
| Float (r : R)
| Input (p : Placeholder)
| Net (net : Network)
| CondNet (net : CondNetwork)
| Tensor (t : Node matrix)
| Scalar (t : Node fval)
| SummaryOp (t : Node Summary)
| TrainOp (op : Operation).

Definition setattr (self : gmap string attr) (name : string) (value : attr)
  : gmap string attr :=
  <[name := value]> self.

Definition getattr (self : gmap string attr) (name : string) : result attr :=
  match self !! name with
  | Some a => Ok a
  | None => Raise (AttributeError name)
  end.

Definition get_dim self name : result nat :=
  a ← getattr self name;
  match a with Dim n => Ok n | _ => Raise (TypeError name) end.
Definition get_int self name : result Z :=
  a ← getattr self name;
  match a with Int z => Ok z | _ => Raise (TypeError name) end.
Definition get_float self name : result R :=
  a ← getattr self name;
  match a with Float r => Ok r | _ => Raise (TypeError name) end.
Definition get_input self name : result Placeholder :=
  a ← getattr self name;
  match a with Input p => Ok p | _ => Raise (TypeError name) end.
Definition get_net self name : result Network :=
  a ← getattr self name;
  match a with Net n => Ok n | _ => Raise (TypeError name) end.
Definition get_cnet self name : result CondNetwork :=
  a ← getattr self name;
  match a with CondNet n => Ok n | _ => Raise (TypeError name) end.
Definition get_tensor self name : result (Node matrix) :=
  a ← getattr self name;
  match a with Tensor t => Ok t | _ => Raise (TypeError name) end.
Definition get_scalar self name : result (Node fval) :=
  a ← getattr self name;
  match a with Scalar t => Ok t | _ => Raise (TypeError name) end.
Definition get_summary self name : result (Node Summary) :=
  a ← getattr self name;
  match a with SummaryOp t => Ok t | _ => Raise (TypeError name) end.
Definition get_op self name : result Operation :=
  a ← getattr self name;
  match a with TrainOp op => Ok op | _ => Raise (TypeError name) end.

(** *** Construction *)

Definition __init__ (input_dim z_dim num_classes batch_size : nat)
    (learning_rate : R) : gmap string attr :=
  let self := setattr ∅ "input_dim" (Dim input_dim) in
  let self := setattr self "z_dim" (Dim z_dim) in
  let self := setattr self "num_classes" (Dim num_classes) in
  let self := setattr self "batch_size" (Dim batch_size) in
  let self := setattr self "learning_rate" (Float learning_rate) in
  let self := setattr self "step" (Int 0) in
  let self := setattr self "X" (Input (tf.placeholder input_dim "X_inputs")) in
  let self :=
    setattr self "y_labels"
      (Input (tf.placeholder (num_classes + 1) "y_labels")) in
  let self := setattr self "z_inputs" (Input (tf.placeholder z_dim "z_inputs")) in
  let self := setattr self "encoder" (Net (Encoder z_dim)) in
  let self := setattr self "decoder" (Net (Decoder z_dim)) in
  setattr self "discriminator" (CondNet (Discriminator z_dim num_classes)).

(** *** Graph assembly *)

Definition _build_VAE_network (self : gmap string attr)
  : result (gmap string attr) :=
  encoder ← get_net self "encoder";
  X ← get_input self "X";
  let self := setattr self "q_z" (Tensor (apply_net encoder (tf.read X) true)) in
  decoder ← get_net self "decoder";
  q_z ← get_tensor self "q_z";
  let self := setattr self "recon_imgs" (Tensor (apply_net decoder q_z true)) in
  recon_imgs ← get_tensor self "recon_imgs";
  X ← get_input self "X";
  let self :=
    setattr self "recon_loss"
      (Scalar
         (tf.reduce_mean1
            (tf.reduce_sum_axis1
               (tf.square (tf.subtract recon_imgs (tf.read X)))))) in
  recon_loss ← get_scalar self "recon_loss";
  Ok (setattr self "recon_loss_summary"
        (SummaryOp (tf.summary_scalar "Reconstruct_Loss" recon_loss))).

(** Both applications of the discriminator read the same variable store:
    this is what re-entering its scope in reuse mode achieves. *)
Definition _build_GAN_network (self : gmap string attr) (G_type : Z)
  : result (gmap string attr) :=
  discriminator ← get_cnet self "discriminator";
  q_z ← get_tensor self "q_z";
  y_labels ← get_input self "y_labels";
  let fake_logits := apply_cnet discriminator q_z (tf.read y_labels) true in
  discriminator ← get_cnet self "discriminator";
  z_inputs ← get_input self "z_inputs";
  y_labels ← get_input self "y_labels";
  let true_logits :=
    apply_cnet discriminator (tf.read z_inputs) (tf.read y_labels) true in
  let self :=
    setattr self "L_D"
      (Scalar
         (tf.negative
            (tf.reduce_mean
               (tf.add
                  (tf.log (tf.add_scalar (tf.sigmoid true_logits) TINY))
                  (tf.log
                     (tf.add_scalar
                        (tf.scalar_sub 1 (tf.sigmoid fake_logits)) TINY)))))) in
  L_D ← get_scalar self "L_D";
  let self :=
    setattr self "L_D_summary"
      (SummaryOp (tf.summary_scalar "Discriminator_Loss" L_D)) in
  let self :=
    if (G_type =? 1)%Z then
      setattr self "L_G"
        (Scalar
           (tf.reduce_mean
              (tf.scalar_sub 1
                 (tf.log (tf.add_scalar (tf.sigmoid fake_logits) TINY)))))
    else if (G_type =? 2)%Z then
      setattr self "L_G"
        (Scalar
           (tf.negative
              (tf.reduce_mean
                 (tf.log (tf.add_scalar (tf.sigmoid fake_logits) TINY)))))
    else self in
  L_G ← get_scalar self "L_G";
  Ok (setattr self "L_G_summary"
        (SummaryOp (tf.summary_scalar "Generator_Loss" L_G))).

Definition _build_train_ops (self : gmap string attr)
  : result (gmap string attr) :=
  encoder ← get_net self "encoder";
  let encoder_train_vars := get_variables encoder in
  decoder ← get_net self "decoder";
  let decoder_train_vars := get_variables decoder in
  discriminator ← get_cnet self "discriminator";
  let disc_train_vars := cget_variables discriminator in
  learning_rate ← get_float self "learning_rate";
  recon_loss ← get_scalar self "recon_loss";
  let self :=
    setattr self "vae_train_op"
      (TrainOp
         (minimize (AdamOptimizer learning_rate) recon_loss
            (encoder_train_vars ++ decoder_train_vars))) in
  learning_rate ← get_float self "learning_rate";
  L_D ← get_scalar self "L_D";
  let self :=
    setattr self "disc_train_op"
      (TrainOp (minimize (AdamOptimizer learning_rate) L_D disc_train_vars)) in
  learning_rate ← get_float self "learning_rate";
  L_G ← get_scalar self "L_G";
  Ok (setattr self "gen_train_op"
        (TrainOp
           (minimize (GradientDescentOptimizer learning_rate) L_G
              encoder_train_vars))).

Definition build (self : gmap string attr) (G_type : Z)
  : result (gmap string attr) :=
  self ← _build_VAE_network self;
  self ← _build_GAN_network self G_type;
  self ← _build_train_ops self;
  encoder ← get_net self "encoder";
  X ← get_input self "X";
  let self :=
    setattr self "latent_space" (Tensor (apply_net encoder (tf.read X) false)) in
  decoder ← get_net self "decoder";
  z_inputs ← get_input self "z_inputs";
  Ok (setattr self "generated_imgs"
        (Tensor (apply_net decoder (tf.read z_inputs) false))).

(** *** Sampling *)

Definition _sample_StandarddNormal (self : gmap string attr) (shape : nat * nat)
    (rng : RandomState) : matrix * RandomState :=
  standard_normal shape rng.

Definition _sample_Guassian (self : gmap string attr) : unit := tt.

(** *** Training entry points

    The session and the writer are objects the caller owns: each entry point
    takes their state and returns it updated; [writer = None] is the default
    argument. *)

Definition log_summary (self : gmap string attr) (writer : option FileWriter)
    (summary : Summary) : result (option FileWriter) :=
  match writer with
  | Some w => step ← get_int self "step"; Ok (Some (add_summary w summary step))
  | None => Ok None
  end.

Definition train_VAE (self : gmap string attr) (Xv : matrix) (sess : Session)
    (writer : option FileWriter)
  : result (fval * Session * option FileWriter) :=
  vae_train_op ← get_op self "vae_train_op";
  recon_loss_t ← get_scalar self "recon_loss";
  recon_loss_summary ← get_summary self "recon_loss_summary";
  X ← get_input self "X";
  '(recon_loss, summary, sess) ←
    run_train sess vae_train_op recon_loss_t recon_loss_summary
      {[ ph_name X := Xv ]};
  writer ← log_summary self writer summary;
  Ok (recon_loss, sess, writer).

Definition train_GENERATOR (self : gmap string attr) (Xv yv : matrix)
    (sess : Session) (writer : option FileWriter)
  : result (fval * Session * option FileWriter) :=
  X ← get_input self "X";
  y_labels ← get_input self "y_labels";
  let feed_dict : feed_dict :=
    <[ph_name y_labels := yv]> {[ ph_name X := Xv ]} in
  gen_train_op ← get_op self "gen_train_op";
  L_G ← get_scalar self "L_G";
  L_G_summary ← get_summary self "L_G_summary";
  '(gen_loss, summary, sess) ←
    run_train sess gen_train_op L_G L_G_summary feed_dict;
  writer ← log_summary self writer summary;
  Ok (gen_loss, sess, writer).

Definition train_DISCRIMINATOR (self : gmap string attr) (Xv yv : matrix)
    (sess : Session) (writer : option FileWriter) (rng : RandomState)
  : result (fval * Session * option FileWriter * RandomState) :=
  batch_size ← get_dim self "batch_size";
  z_dim ← get_dim self "z_dim";
  let '(p_z, rng) := _sample_StandarddNormal self (batch_size, z_dim) rng in
  X ← get_input self "X";
  y_labels ← get_input self "y_labels";
  z_inputs ← get_input self "z_inputs";
  let feed_dict : feed_dict :=
    <[ph_name z_inputs := p_z]>
      (<[ph_name y_labels := yv]> {[ ph_name X := Xv ]}) in
  disc_train_op ← get_op self "disc_train_op";
  L_D ← get_scalar self "L_D";
  L_D_summary ← get_summary self "L_D_summary";
  '(disc_loss, summary, sess) ←
    run_train sess disc_train_op L_D L_D_summary feed_dict;
  writer ← log_summary self writer summary;
  Ok (disc_loss, sess, writer, rng).

(** *** Inference entry points *)

Definition get_latent_space (self : gmap string attr) (sess : Session)
    (Xv : matrix) : result (matrix * Session) :=
  latent_space ← get_tensor self "latent_space";
  X ← get_input self "X";
  run_fetch sess latent_space {[ ph_name X := Xv ]}.

Definition get_reconstructed_images (self : gmap string attr) (sess : Session)
    (Xv : matrix) : result (matrix * Session) :=
  recon_imgs ← get_tensor self "recon_imgs";
  X ← get_input self "X";
  run_fetch sess recon_imgs {[ ph_name X := Xv ]}.

Definition get_generated_images (self : gmap string attr) (sess : Session)
    (q_z : option matrix) (rng : RandomState)
  : result (matrix * Session * RandomState) :=
  '(q_z, rng) ←
    match q_z with
    | None =>
        batch_size ← get_dim self "batch_size";
        z_dim ← get_dim self "z_dim";
        Ok (standard_normal (batch_size, z_dim) rng)
    | Some z => Ok (z, rng)
    end;
  z_inputs ← get_input self "z_inputs";
  generated_imgs ← get_tensor self "generated_imgs";
  '(imgs, sess) ← run_fetch sess generated_imgs {[ ph_name z_inputs := q_z ]};
  Ok (imgs, sess, rng).

End AAE.

(** ** The formulas of the specification

    The losses the way the specification writes them: entry by entry, over
    the indices of the batch and of the features. *)

Definition entry (t : matrix) (i j : nat) : fval := nth j (nth i t []) NaN.

(** The sum of [f 0], ..., [f (n - 1)]. *)
Definition sum_range (n : nat) (f : nat → fval) : fval :=
  kernel.sum (map f (seq 0 n)).

(** The entries [g i j] of an [n] by [m] tensor, row after row. *)
Definition entries (n m : nat) (g : nat → nat → fval) : vector :=
  flat_map (fun i => map (g i) (seq 0 m)) (seq 0 n).

(** Mean over the batch of the sum over the features of the squared error. *)
Definition spec_recon_loss (n d : nat) (recon X : matrix) : fval :=
  fdiv
    (sum_range n (fun i =>
       sum_range d (fun j => fsquare (fsub (entry recon i j) (entry X i j)))))
    (of_nat n).

(** -mean(log(sigmoid(true) + eps) + log(1 - sigmoid(fake) + eps)) *)
Definition spec_L_D (eps : R) (n m : nat) (true_logits fake_logits : matrix)
  : fval :=
  fneg
    (kernel.mean
       (entries n m (fun i j =>
          fadd
            (flog (fadd (fsigmoid (entry true_logits i j)) (Finite eps)))
            (flog
               (fadd (fsub (Finite 1) (fsigmoid (entry fake_logits i j)))
                  (Finite eps)))))).

(** mean(1 - log(sigmoid(fake) + eps)) *)
Definition spec_L_G1 (eps : R) (n m : nat) (fake_logits : matrix) : fval :=
  kernel.mean
    (entries n m (fun i j =>
       fsub (Finite 1)
         (flog (fadd (fsigmoid (entry fake_logits i j)) (Finite eps))))).

(** -mean(log(sigmoid(fake) + eps)) *)
Definition spec_L_G2 (eps : R) (n m : nat) (fake_logits : matrix) : fval :=
  fneg
    (kernel.mean
       (entries n m (fun i j =>
          flog (fadd (fsigmoid (entry fake_logits i j)) (Finite eps))))).

(** A feed that gives a placeholder a value of its width. *)
Definition fed (fd : feed_dict) (p : Placeholder) (t : matrix) : Prop :=
  fd !! ph_name p = Some t ∧ Forall (fun row => length row = ph_cols p) t.

(** ** The reconstruction loss on [float32] values

    The placeholders and the tensors computed from them are [tf.float32].
    This is the computation of [recon_loss],
    [tf.reduce_mean(tf.reduce_sum(tf.square(recon_imgs - X), axis=1))], on
    the values of the two tensors, in the arithmetic of IEEE 754 binary32
    (24 bits of precision, round to nearest, ties to even) as the standard
    library specifies it: here a square can underflow to zero and overflow
    to infinity. Sums run left to right. *)
Module binary32.

Import SpecFloat.

Definition prec : Z := 24.
Definition emax : Z := 128.

Abbreviation float32 := spec_float.

Definition add : float32 → float32 → float32 := SFadd prec emax.
Definition sub : float32 → float32 → float32 := SFsub prec emax.
Definition mul : float32 → float32 → float32 := SFmul prec emax.
Definition div : float32 → float32 → float32 := SFdiv prec emax.

(** [tf.square] on one element. *)
Definition square (x : float32) : float32 := mul x x.

Definition zero : float32 := S754_zero false.

(** The value nearest to [m] times two to the power [e]. *)
Definition of_Z (m e : Z) : float32 := binary_normalize prec emax m e false.

(** The number of elements of a reduction, as a [float32]. *)
Definition of_nat (n : nat) : float32 := of_Z (Z.of_nat n) 0.

(** [a - b] for two tensors of rank 2, with broadcasting. *)
Definition subtract (a b : list (list float32))
  : result (list (list float32)) :=
  kernel.bcast (kernel.bcast (fun x y => Ok (sub x y))) a b.

(** [tf.reduce_sum] of one row. *)
Definition reduce_sum (l : list float32) : float32 := foldl add zero l.

(** [tf.reduce_mean] of a rank-1 tensor; of nothing it is 0/0. *)
Definition reduce_mean (l : list float32) : float32 :=
  div (reduce_sum l) (of_nat (length l)).

(** [tf.reduce_mean(tf.reduce_sum(tf.square(recon_imgs - X), axis=1))] *)
Definition recon_loss (recon_imgs X : list (list float32)) : result float32 :=
  diff ← subtract recon_imgs X;
  Ok (reduce_mean (map reduce_sum (map (map square) diff))).

(** A zero or a normal or subnormal number. *)
Definition is_finite (x : float32) : Prop :=
  match x with
  | S754_zero _ | S754_finite _ _ _ => True
  | _ => False
  end.



Definition has_shape (n d : nat) (t : list (list float32)) : Prop :=
  length t = n ∧ Forall (fun row => length row = d) t.



End binary32.

(** ** The object after [build] *)

Section Built.

Context `{ext : Externals}.
Variables (input_dim z_dim num_classes batch_size : nat) (learning_rate : R).

Definition fresh : gmap string attr :=
  __init__ input_dim z_dim num_classes batch_size learning_rate.

(** The object that [_build_VAE_network] returns on a fresh object. *)
Definition vae_built : gmap string attr :=
  match _build_VAE_network fresh with
  | Ok self => self
  | Raise _ => ∅
  end.

(** The object that [build] returns on a fresh object. *)
Definition built (G_type : Z) : gmap string attr :=
  match build fresh G_type with
  | Ok self => self
  | Raise _ => ∅
  end.

(** The nodes that [build] wires, from the three placeholders up to the two
    logit tensors. *)
Definition X_ph : Placeholder := tf.placeholder input_dim "X_inputs".
Definition y_ph : Placeholder := tf.placeholder (num_classes + 1) "y_labels".
Definition z_ph : Placeholder := tf.placeholder z_dim "z_inputs".

Definition q_z_node : Node matrix :=
  apply_net (Encoder z_dim) (tf.read X_ph) true.
Definition recon_imgs_node : Node matrix :=
  apply_net (Decoder z_dim) q_z_node true.
Definition fake_logits_node : Node matrix :=
  apply_cnet (Discriminator z_dim num_classes) q_z_node (tf.read y_ph) true.
Definition true_logits_node : Node matrix :=
  apply_cnet (Discriminator z_dim num_classes) (tf.read z_ph) (tf.read y_ph)
    true.

(** The three loss nodes over them, as [_build_VAE_network] and
    [_build_GAN_network] store them in the object. *)
Definition recon_loss_node : Node fval :=
  tf.reduce_mean1
    (tf.reduce_sum_axis1
       (tf.square (tf.subtract recon_imgs_node (tf.read X_ph)))).

Definition L_D_node : Node fval :=
  tf.negative
    (tf.reduce_mean
       (tf.add
          (tf.log (tf.add_scalar (tf.sigmoid true_logits_node) TINY))
          (tf.log
             (tf.add_scalar (tf.scalar_sub 1 (tf.sigmoid fake_logits_node))
                TINY)))).

Definition L_G_node (G_type : Z) : Node fval :=
  if (G_type =? 1)%Z then
    tf.reduce_mean
      (tf.scalar_sub 1
         (tf.log (tf.add_scalar (tf.sigmoid fake_logits_node) TINY)))
  else
    tf.negative
      (tf.reduce_mean
         (tf.log (tf.add_scalar (tf.sigmoid fake_logits_node) TINY))).

(** The values of these tensors at given variables and feeds. *)
Definition fake_logits_at (vs : var_store) (Xv yv : matrix) : matrix :=
  ccall (Discriminator z_dim num_classes) vs
    (call (Encoder z_dim) vs Xv true) yv true.

Definition true_logits_at (vs : var_store) (zv yv : matrix) : matrix :=
  ccall (Discriminator z_dim num_classes) vs zv yv true.

Definition recon_at (vs : var_store) (Xv : matrix) : matrix :=
  call (Decoder z_dim) vs (call (Encoder z_dim) vs Xv true) true.

End Built.

(** The caller's assignment [model.step = k]. *)
Definition at_step (self : gmap string attr) (k : Z) : gmap string attr :=
  setattr self "step" (Int k).

(** A step between two states of a session changes no variable outside
    [vars]; it changes no variable of [vars]. *)
Definition changes_only (vars : list string) (sess sess' : Session) : Prop :=
  ∀ v, v ∉ vars → variables sess' !! v = variables sess !! v.

Definition unchanged (vars : list string) (sess sess' : Session) : Prop :=
  ∀ v, v ∈ vars → variables sess' !! v = variables sess !! v.

(** What a training call leaves in the writer it was given: one more record,
    tagged with the step. *)
Definition logged (writer : option FileWriter) (summary : Summary) (k : Z)
  : option FileWriter :=
  (fun w => add_summary w summary k) <$> writer.


(** The claim that a call of [build] fails inside [_build_train_ops]: the two
    stages before it succeed. *)
Definition fails_in_train_ops `{ext : Externals} (self : gmap string attr)
    (G_type : Z) : Prop :=
  ∃ s1 s2 e,
    _build_VAE_network self = Ok s1 ∧
    _build_GAN_network s1 G_type = Ok s2 ∧
    _build_train_ops s2 = Raise e.

(** ** A small instance

    Identity encoder and decoder, a discriminator that returns the latent
    vector as its logits, gradients that are all one, and a sampler that
    counts its draws. *)
Module Example.

Definition ones_like (t : matrix) : matrix :=
  map (map (fun _ => Finite 1)) t.

#[local] Instance ext : Externals := {|
  TINY := 1 / 100000000;
  Encoder := fun _ =>
    {| call := fun _ x _ => x; get_variables := ["encoder/w"] |};
  Decoder := fun _ =>
    {| call := fun _ x _ => x; get_variables := ["decoder/w"] |};
  Discriminator := fun _ _ =>
    {| ccall := fun _ z _ _ => z; cget_variables := ["discriminator/w"] |};
  gradients := fun _ v vs _ => ones_like (default [] (vs !! v));
  AdamOptimizer := GradientDescentOptimizer;
  RandomState := nat;
  standard_normal := fun shape s =>
    (replicate shape.1 (replicate shape.2 (Finite 0)), S s)
|}.

Definition self0 : gmap string attr := fresh 1 1 2 1 (1 / 10).

Definition built0 (G_type : Z) : gmap string attr :=
  built 1 1 2 1 (1 / 10) G_type.

Definition sess0 : Session :=
  {| variables :=
       <["encoder/w" := [[Finite 1]]]>
         (<["decoder/w" := [[Finite 2]]]>
            {["discriminator/w" := [[Finite 3]]]});
     slots := ∅ |}.

Definition X0 : matrix := [[Finite 3]].
Definition y0 : matrix := [[Finite 1; Finite 0; Finite 0]].

Definition rng0 : RandomState := 0%nat.
Definition rng1 : RandomState := 1%nat.

Definition fd_X (Xv : matrix) : feed_dict := {[ "X_inputs" := Xv ]}.

Definition fd_all (Xv zv : matrix) : feed_dict :=
  <["z_inputs" := zv]> (<["y_labels" := y0]> {[ "X_inputs" := Xv ]}).

End Example.

(** * Properties *)

(** ** The result monad *)

Lemma Ok_inj {A} (a b : A) : Ok a = Ok b → a = b.
Proof. intros H. injection H. trivial. Qed.

Lemma mapM_pure {A B} (g : A → B) (l : list A) :
  mapM (fun a => Ok (g a)) l = Ok (map g l).
Proof.
  induction l as [|a l IH]; [reflexivity|].
  cbn. rewrite IH. reflexivity.
Qed.

Lemma mapM_ext_in {A B} (f g : A → result B) (l : list A) :
  (∀ a, a ∈ l → f a = g a) → mapM f l = mapM g l.
Proof.
  induction l as [|a l IH]; intros H; [reflexivity|].
  cbn. rewrite (H a) by constructor.
  rewrite IH; [reflexivity|]. intros b Hb. apply H. by constructor.
Qed.

(** ** Broadcasting on equal shapes is the element-wise operation *)

Lemma bcast_same_length {A B} (f : A → A → result B) xs ys :
  length xs = length ys →
  kernel.bcast f xs ys = mapM (fun p => f p.1 p.2) (zip xs ys).
Proof.
  intros H. unfold kernel.bcast. rewrite H, Nat.eqb_refl. reflexivity.
Qed.

Lemma bcast_pure_same_length (f : fval → fval → fval) (xs ys : vector) :
  length xs = length ys →
  kernel.bcast (fun x y => Ok (f x y)) xs ys = Ok (zip_with f xs ys).
Proof.
  intros H. rewrite bcast_same_length by done.
  rewrite (mapM_pure (fun p => f p.1 p.2)).
  f_equal. revert ys H. induction xs as [|x xs IH]; intros [|y ys] H; try done.
  cbn. f_equal. apply IH. by injection H.
Qed.

Lemma broadcast2_same_shape f n d (a b : matrix) :
  has_shape n d a → has_shape n d b →
  kernel.broadcast2 f a b = Ok (zip_with (zip_with f) a b).
Proof.
  intros [Ha1 Ha2] [Hb1 Hb2]. unfold kernel.broadcast2.
  rewrite bcast_same_length by congruence.
  rewrite (mapM_ext_in _ (fun p => Ok (zip_with f p.1 p.2))).
  - rewrite (mapM_pure (fun p => zip_with f p.1 p.2)). f_equal.
    clear. revert b. induction a as [|x a IH]; intros [|y b]; try done.
    cbn. f_equal. apply IH.
  - intros [r1 r2] Hin. cbn.
    apply bcast_pure_same_length.
    apply elem_of_zip_l in Hin as H1. apply elem_of_zip_r in Hin as H2.
    cbn in *. rewrite Forall_forall in Ha2, Hb2.
    rewrite (Ha2 r1), (Hb2 r2); auto.
Qed.

(** ** Lists by their indices *)

Lemma zip_with_seq {A B C} (f : A → B → C) (da : A) (db : B) n
    (a : list A) (b : list B) :
  length a = n → length b = n →
  zip_with f a b = map (fun i => f (nth i a da) (nth i b db)) (seq 0 n).
Proof.
  revert a b. induction n as [|n IH]; intros [|x a] [|y b] Ha Hb; try done.
  cbn [seq map zip_with nth]. f_equal.
  rewrite <- seq_shift, map_map. cbn [nth]. apply IH; cbn in *; lia.
Qed.

Lemma map_seq_nth {A B} (f : A → B) (da : A) n (a : list A) :
  length a = n → map f a = map (fun i => f (nth i a da)) (seq 0 n).
Proof.
  revert a. induction n as [|n IH]; intros [|x a] Ha; try done.
  cbn [seq map nth]. f_equal.
  rewrite <- seq_shift, map_map. cbn [nth]. apply IH; cbn in *; lia.
Qed.

Lemma has_shape_row n d (t : matrix) i :
  has_shape n d t → (i < n)%nat → length (nth i t []) = d.
Proof.
  intros [H1 H2] Hi. rewrite Forall_forall in H2. apply H2.
  apply list_elem_of_In. apply nth_In. lia.
Qed.

Lemma has_shape_forallb n d (t : matrix) :
  has_shape n d t → forallb (fun row => (length row =? d)%nat) t = true.
Proof.
  intros [_ H]. apply forallb_forall. intros r Hr.
  rewrite Forall_forall in H. apply Nat.eqb_eq, H. by apply list_elem_of_In.
Qed.

Lemma Forall_forallb_width d (t : matrix) :
  Forall (fun row => length row = d) t →
  forallb (fun row => (length row =? d)%nat) t = true.
Proof. intros H. by apply (has_shape_forallb (length t)). Qed.

Lemma squared_error_rows n d (recon X : matrix) :
  has_shape n d recon → has_shape n d X →
  map kernel.sum (kernel.map_elems fsquare (zip_with (zip_with fsub) recon X)) =
  map (fun i => sum_range d (fun j =>
         fsquare (fsub (entry recon i j) (entry X i j)))) (seq 0 n).
Proof.
  intros Hr HX. unfold kernel.map_elems.
  rewrite (zip_with_seq _ [] [] n) by (apply Hr || apply HX).
  rewrite !map_map. apply map_ext_in. intros i Hi. apply in_seq in Hi.
  unfold sum_range. f_equal.
  rewrite (zip_with_seq _ NaN NaN d) by (eapply has_shape_row; eauto; lia).
  rewrite map_map. reflexivity.
Qed.

Lemma concat_map_elems_entries n m (f : fval → fval) (t : matrix) :
  has_shape n m t →
  concat (kernel.map_elems f t) = entries n m (fun i j => f (entry t i j)).
Proof.
  intros Ht. unfold kernel.map_elems, entries.
  rewrite (map_seq_nth _ [] n) by apply Ht.
  rewrite flat_map_concat_map. f_equal.
  apply map_ext_in. intros i Hi. apply in_seq in Hi.
  apply (map_seq_nth _ NaN). eapply has_shape_row; eauto; lia.
Qed.

Lemma concat_zip_with_entries n m (f : fval → fval → fval) (a b : matrix) :
  has_shape n m a → has_shape n m b →
  concat (zip_with (zip_with f) a b) =
  entries n m (fun i j => f (entry a i j) (entry b i j)).
Proof.
  intros Ha Hb. unfold entries.
  rewrite (zip_with_seq _ [] [] n) by (apply Ha || apply Hb).
  rewrite flat_map_concat_map. f_equal.
  apply map_ext_in. intros i Hi. apply in_seq in Hi.
  apply (zip_with_seq _ NaN NaN); eapply has_shape_row; eauto; lia.
Qed.

Lemma has_shape_map_elems n m f (t : matrix) :
  has_shape n m t → has_shape n m (kernel.map_elems f t).
Proof.
  intros [H1 H2]. split; unfold kernel.map_elems.
  - by rewrite length_map.
  - apply Forall_map. eapply Forall_impl; [exact H2|].
    intros r Hr. cbn. by rewrite length_map.
Qed.

Lemma entry_map_elems n m f (t : matrix) i j :
  has_shape n m t → (i < n)%nat → (j < m)%nat →
  entry (kernel.map_elems f t) i j = f (entry t i j).
Proof.
  intros Ht Hi Hj. unfold entry, kernel.map_elems.
  rewrite (nth_indep _ [] (map f [])) by (rewrite length_map; destruct Ht; lia).
  rewrite map_nth.
  rewrite (nth_indep _ NaN (f NaN)).
  - apply map_nth.
  - rewrite length_map. erewrite has_shape_row; eauto.
Qed.

Lemma entries_ext n m (g h : nat → nat → fval) :
  (∀ i j, (i < n)%nat → (j < m)%nat → g i j = h i j) →
  entries n m g = entries n m h.
Proof.
  intros H. unfold entries. rewrite !flat_map_concat_map. f_equal.
  apply map_ext_in. intros i Hi. apply in_seq in Hi.
  apply map_ext_in. intros j Hj. apply in_seq in Hj. apply H; lia.
Qed.

(** ** What [build] leaves in the object *)

Section BuildFacts.

Context `{ext : Externals}.
Variables (d zd nc bs : nat) (lr : R).

Lemma getattr_setattr_eq (self : gmap string attr) k v :
  getattr (setattr self k v) k = Ok v.
Proof. unfold getattr, setattr. by rewrite lookup_insert_eq. Qed.

Lemma getattr_setattr_ne (self : gmap string attr) k k' v :
  k ≠ k' → getattr (setattr self k v) k' = getattr self k'.
Proof. intros H. unfold getattr, setattr. by rewrite lookup_insert_ne. Qed.

Lemma vae_built_ok :
  _build_VAE_network (fresh d zd nc bs lr) = Ok (vae_built d zd nc bs lr).
Proof. reflexivity. Qed.

(** With [G_type] neither 1 nor 2, no branch assigns [L_G], and reading it
    for the summary raises. *)
Lemma _build_GAN_network_unset (self : gmap string attr) G D q y z :
  G ≠ 1%Z → G ≠ 2%Z → self !! "L_G" = None →
  get_cnet self "discriminator" = Ok D →
  get_tensor self "q_z" = Ok q →
  get_input self "y_labels" = Ok y →
  get_input self "z_inputs" = Ok z →
  _build_GAN_network self G = Raise (AttributeError "L_G").
Proof.
  intros H1 H2 HL HD Hq Hy Hz. unfold _build_GAN_network.
  rewrite HD, Hq, Hy, Hz. cbn [mbind result_bind]. cbv zeta.
  unfold get_scalar. rewrite getattr_setattr_eq. cbn [mbind result_bind].
  apply Z.eqb_neq in H1, H2. rewrite H1, H2.
  rewrite !getattr_setattr_ne by done.
  unfold getattr. rewrite HL. reflexivity.
Qed.

Lemma _build_GAN_network_other G :
  G ≠ 1%Z → G ≠ 2%Z →
  _build_GAN_network (vae_built d zd nc bs lr) G = Raise (AttributeError "L_G").
Proof.
  intros H1 H2. eapply _build_GAN_network_unset; try done; reflexivity.
Qed.

Lemma build_other G :
  G ≠ 1%Z → G ≠ 2%Z →
  build (fresh d zd nc bs lr) G = Raise (AttributeError "L_G").
Proof.
  intros H1 H2. unfold build. rewrite vae_built_ok. cbn [mbind result_bind].
  rewrite _build_GAN_network_other by done. reflexivity.
Qed.

Lemma build_cases G self :
  build (fresh d zd nc bs lr) G = Ok self →
  (G = 1%Z ∨ G = 2%Z) ∧ self = built d zd nc bs lr G.
Proof.
  intros H.
  destruct (decide (G = 1%Z)) as [->|H1].
  { split; [by left|]. symmetry. apply Ok_inj. rewrite <- H. reflexivity. }
  destruct (decide (G = 2%Z)) as [->|H2].
  { split; [by right|]. symmetry. apply Ok_inj. rewrite <- H. reflexivity. }
  rewrite build_other in H by done. discriminate H.
Qed.

(** The attributes of the built object. *)
Lemma built_attrs G :
  G = 1%Z ∨ G = 2%Z →
  let self := built d zd nc bs lr G in
  get_scalar self "recon_loss" = Ok (recon_loss_node d zd) ∧
  get_scalar self "L_D" = Ok (L_D_node d zd nc) ∧
  get_scalar self "L_G" = Ok (L_G_node d zd nc G) ∧
  get_summary self "recon_loss_summary" =
    Ok (tf.summary_scalar "Reconstruct_Loss" (recon_loss_node d zd)) ∧
  get_summary self "L_D_summary" =
    Ok (tf.summary_scalar "Discriminator_Loss" (L_D_node d zd nc)) ∧
  get_summary self "L_G_summary" =
    Ok (tf.summary_scalar "Generator_Loss" (L_G_node d zd nc G)) ∧
  get_op self "vae_train_op" =
    Ok (minimize (AdamOptimizer lr) (recon_loss_node d zd)
          (get_variables (Encoder zd) ++ get_variables (Decoder zd))) ∧
  get_op self "disc_train_op" =
    Ok (minimize (AdamOptimizer lr) (L_D_node d zd nc)
          (cget_variables (Discriminator zd nc))) ∧
  get_op self "gen_train_op" =
    Ok (minimize (GradientDescentOptimizer lr) (L_G_node d zd nc G)
          (get_variables (Encoder zd))) ∧
  get_tensor self "recon_imgs" = Ok (recon_imgs_node d zd) ∧
  get_tensor self "latent_space" =
    Ok (apply_net (Encoder zd) (tf.read (X_ph d)) false) ∧
  get_tensor self "generated_imgs" =
    Ok (apply_net (Decoder zd) (tf.read (z_ph zd)) false).
Proof. intros [-> | ->]; repeat split; reflexivity. Qed.

(** The attributes that [__init__] sets and [build] keeps. *)
Lemma built_config G :
  G = 1%Z ∨ G = 2%Z →
  let self := built d zd nc bs lr G in
  get_input self "X" = Ok (X_ph d) ∧
  get_input self "y_labels" = Ok (y_ph nc) ∧
  get_input self "z_inputs" = Ok (z_ph zd) ∧
  get_dim self "batch_size" = Ok bs ∧
  get_dim self "z_dim" = Ok zd ∧
  get_int self "step" = Ok 0%Z.
Proof. intros [-> | ->]; repeat split; reflexivity. Qed.

Lemma build_recon_loss G self node :
  build (fresh d zd nc bs lr) G = Ok self →
  get_scalar self "recon_loss" = Ok node →
  node = recon_loss_node d zd.
Proof.
  intros Hb Hn. apply build_cases in Hb as [HG ->].
  destruct (built_attrs G HG) as (E & _).
  apply Ok_inj. by rewrite <- Hn, E.
Qed.

Lemma build_L_D G self node :
  build (fresh d zd nc bs lr) G = Ok self →
  get_scalar self "L_D" = Ok node →
  node = L_D_node d zd nc.
Proof.
  intros Hb Hn. apply build_cases in Hb as [HG ->].
  destruct (built_attrs G HG) as (_ & E & _).
  apply Ok_inj. by rewrite <- Hn, E.
Qed.

Lemma build_L_G G self node :
  build (fresh d zd nc bs lr) G = Ok self →
  get_scalar self "L_G" = Ok node →
  (G = 1%Z ∨ G = 2%Z) ∧ node = L_G_node d zd nc G.
Proof.
  intros Hb Hn. apply build_cases in Hb as [HG ->]. split; [done|].
  destruct (built_attrs G HG) as (_ & _ & E & _).
  apply Ok_inj. by rewrite <- Hn, E.
Qed.

End BuildFacts.

(** ** Evaluation of the nodes *)

Section Eval.

Context `{ext : Externals}.
Variables (d zd nc bs : nat) (lr : R).
Variables (vs : var_store) (fd : feed_dict) (Xv yv zv : matrix).
Hypothesis HX : fed fd (X_ph d) Xv.
Hypothesis Hy : fed fd (y_ph nc) yv.
Hypothesis Hz : fed fd (z_ph zd) zv.

Lemma read_fed p (t : matrix) : fed fd p t → tf.read p vs fd = Ok t.
Proof.
  intros [Hl Hw]. unfold tf.read.
  rewrite Hl, Forall_forallb_width by done. reflexivity.
Qed.

Lemma read_X : tf.read (X_ph d) vs fd = Ok Xv.
Proof. by apply read_fed. Qed.

Lemma read_y : tf.read (y_ph nc) vs fd = Ok yv.
Proof. by apply read_fed. Qed.

Lemma read_z : tf.read (z_ph zd) vs fd = Ok zv.
Proof. by apply read_fed. Qed.

Lemma q_z_eval : q_z_node d zd vs fd = Ok (call (Encoder zd) vs Xv true).
Proof. unfold q_z_node, apply_net. by rewrite read_X. Qed.

Lemma recon_imgs_eval : recon_imgs_node d zd vs fd = Ok (recon_at zd vs Xv).
Proof. unfold recon_imgs_node, apply_net. by rewrite q_z_eval. Qed.

Lemma fake_logits_eval :
  fake_logits_node d zd nc vs fd = Ok (fake_logits_at zd nc vs Xv yv).
Proof. unfold fake_logits_node, apply_cnet. by rewrite q_z_eval, read_y. Qed.

Lemma true_logits_eval :
  true_logits_node zd nc vs fd = Ok (true_logits_at zd nc vs zv yv).
Proof. unfold true_logits_node, apply_cnet. by rewrite read_z, read_y. Qed.

(** The three losses, as the computations on values they stand for. *)
Lemma recon_loss_eval :
  recon_loss_node d zd vs fd =
  diff ← kernel.broadcast2 fsub (recon_at zd vs Xv) Xv;
  Ok (kernel.mean (map kernel.sum (kernel.map_elems fsquare diff))).
Proof.
  unfold recon_loss_node, tf.reduce_mean1, tf.reduce_sum_axis1, tf.square,
    tf.subtract, tf.lift1, tf.lift2.
  rewrite recon_imgs_eval, read_X. cbn [mbind result_bind].
  by destruct (kernel.broadcast2 _ _ _).
Qed.

Lemma L_D_eval :
  L_D_node d zd nc vs fd =
  terms ←
    kernel.broadcast2 fadd
      (kernel.map_elems flog
         (kernel.map_elems (fun x => fadd x (Finite TINY))
            (kernel.map_elems fsigmoid (true_logits_at zd nc vs zv yv))))
      (kernel.map_elems flog
         (kernel.map_elems (fun x => fadd x (Finite TINY))
            (kernel.map_elems (fun x => fsub (Finite 1) x)
               (kernel.map_elems fsigmoid (fake_logits_at zd nc vs Xv yv)))));
  Ok (fneg (kernel.mean (concat terms))).
Proof.
  unfold L_D_node, tf.negative, tf.reduce_mean, tf.add, tf.log, tf.add_scalar,
    tf.scalar_sub, tf.sigmoid, tf.lift1, tf.lift2.
  rewrite true_logits_eval, fake_logits_eval. cbn [mbind result_bind].
  by destruct (kernel.broadcast2 _ _ _).
Qed.

Lemma L_G_eval G :
  L_G_node d zd nc G vs fd =
  let logs :=
    kernel.map_elems flog
      (kernel.map_elems (fun x => fadd x (Finite TINY))
         (kernel.map_elems fsigmoid (fake_logits_at zd nc vs Xv yv))) in
  Ok (if (G =? 1)%Z
      then kernel.mean
             (concat (kernel.map_elems (fun x => fsub (Finite 1) x) logs))
      else fneg (kernel.mean (concat logs))).
Proof.
  unfold L_G_node, tf.negative, tf.reduce_mean, tf.log, tf.add_scalar,
    tf.scalar_sub, tf.sigmoid, tf.lift1.
  destruct (G =? 1)%Z; rewrite fake_logits_eval; reflexivity.
Qed.

End Eval.

(** ** Arithmetic on finite values *)


(** ** The range of the sigmoid *)


(** ** The losses are the formulas of the specification *)

Section Losses.

Context `{ext : Externals}.
Variables (d zd nc bs : nat) (lr : R).

Lemma recon_loss_node_spec (vs : var_store) (fd : feed_dict) (Xv : matrix) n :
  fed fd (X_ph d) Xv →
  has_shape n d Xv →
  has_shape n d (recon_at zd vs Xv) →
  recon_loss_node d zd vs fd =
  Ok (spec_recon_loss n d (recon_at zd vs Xv) Xv).
Proof.
  intros HX HsX Hsr.
  rewrite (recon_loss_eval d zd vs fd Xv HX).
  rewrite (broadcast2_same_shape _ n d) by done. cbn [mbind result_bind].
  f_equal. unfold kernel.mean, spec_recon_loss, sum_range.
  rewrite (squared_error_rows n d) by done.
  by rewrite length_map, length_seq.
Qed.

Ltac entries_pointwise :=
  apply entries_ext; intros ? ? ? ?;
  repeat (erewrite entry_map_elems;
          [|repeat apply has_shape_map_elems; eassumption|done|done]);
  reflexivity.

Lemma L_D_node_spec (vs : var_store) (fd : feed_dict) (Xv yv zv : matrix) n m :
  fed fd (X_ph d) Xv → fed fd (y_ph nc) yv → fed fd (z_ph zd) zv →
  has_shape n m (true_logits_at zd nc vs zv yv) →
  has_shape n m (fake_logits_at zd nc vs Xv yv) →
  L_D_node d zd nc vs fd =
  Ok (spec_L_D TINY n m (true_logits_at zd nc vs zv yv)
        (fake_logits_at zd nc vs Xv yv)).
Proof.
  intros HX Hy Hz Ht Hf.
  rewrite (L_D_eval d zd nc vs fd Xv yv zv HX Hy Hz).
  rewrite (broadcast2_same_shape _ n m)
    by (repeat apply has_shape_map_elems; done).
  cbn [mbind result_bind]. f_equal. unfold spec_L_D. do 2 f_equal.
  rewrite (concat_zip_with_entries n m)
    by (repeat apply has_shape_map_elems; done).
  entries_pointwise.
Qed.

Lemma L_G_node_spec G (vs : var_store) (fd : feed_dict) (Xv yv : matrix) n m :
  fed fd (X_ph d) Xv → fed fd (y_ph nc) yv →
  has_shape n m (fake_logits_at zd nc vs Xv yv) →
  L_G_node d zd nc G vs fd =
  Ok (if (G =? 1)%Z
      then spec_L_G1 TINY n m (fake_logits_at zd nc vs Xv yv)
      else spec_L_G2 TINY n m (fake_logits_at zd nc vs Xv yv)).
Proof.
  intros HX Hy Hf.
  rewrite (L_G_eval d zd nc vs fd Xv yv HX Hy). cbv zeta.
  destruct (G =? 1)%Z; f_equal.
  - unfold spec_L_G1. f_equal.
    rewrite (concat_map_elems_entries n m)
      by (repeat apply has_shape_map_elems; done).
    entries_pointwise.
  - unfold spec_L_G2. do 2 f_equal.
    rewrite (concat_map_elems_entries n m)
      by (repeat apply has_shape_map_elems; done).
    entries_pointwise.
Qed.

(** C1. The reconstruction loss that [build] stores is, on every fed batch
    whose reconstruction has the shape of the batch, the mean over the batch
    of the sum over the features of the squared error between the
    reconstruction and the batch. *)
Theorem recon_loss_is_mean_of_summed_squared_error
    G self node (vs : var_store) (fd : feed_dict) (Xv : matrix) n :
  build (fresh d zd nc bs lr) G = Ok self →
  get_scalar self "recon_loss" = Ok node →
  fed fd (X_ph d) Xv →
  has_shape n d Xv →
  has_shape n d (recon_at zd vs Xv) →
  node vs fd = Ok (spec_recon_loss n d (recon_at zd vs Xv) Xv).
Proof.
  intros Hb Hn HX HsX Hsr.
  rewrite (build_recon_loss d zd nc bs lr G self node Hb Hn).
  by apply recon_loss_node_spec.
Qed.

(** C2. The discriminator loss that [build] stores is, on every pair of
    logit batches of one shape, minus the mean over their entries of
    log(sigmoid(true) + TINY) + log(1 - sigmoid(fake) + TINY). *)
Theorem L_D_is_minus_mean_of_log_terms
    G self node (vs : var_store) (fd : feed_dict) (Xv yv zv : matrix) n m :
  build (fresh d zd nc bs lr) G = Ok self →
  get_scalar self "L_D" = Ok node →
  fed fd (X_ph d) Xv → fed fd (y_ph nc) yv → fed fd (z_ph zd) zv →
  has_shape n m (true_logits_at zd nc vs zv yv) →
  has_shape n m (fake_logits_at zd nc vs Xv yv) →
  node vs fd =
  Ok (spec_L_D TINY n m (true_logits_at zd nc vs zv yv)
        (fake_logits_at zd nc vs Xv yv)).
Proof.
  intros Hb Hn HX Hy Hz Ht Hf.
  rewrite (build_L_D d zd nc bs lr G self node Hb Hn).
  by apply L_D_node_spec.
Qed.

(** C3. The generator loss that [build] stores is chosen by [G_type] alone:
    with 1 it is the mean of 1 - log(sigmoid(fake) + TINY), with 2 it is
    minus the mean of log(sigmoid(fake) + TINY), on every batch of fake
    logits. *)
Theorem L_G_is_selected_by_G_type
    G self node (vs : var_store) (fd : feed_dict) (Xv yv : matrix) n m :
  build (fresh d zd nc bs lr) G = Ok self →
  get_scalar self "L_G" = Ok node →
  fed fd (X_ph d) Xv → fed fd (y_ph nc) yv →
  has_shape n m (fake_logits_at zd nc vs Xv yv) →
  (G = 1%Z ∨ G = 2%Z) ∧
  (G = 1%Z →
   node vs fd = Ok (spec_L_G1 TINY n m (fake_logits_at zd nc vs Xv yv))) ∧
  (G = 2%Z →
   node vs fd = Ok (spec_L_G2 TINY n m (fake_logits_at zd nc vs Xv yv))).
Proof.
  intros Hb Hn HX Hy Hf.
  destruct (build_L_G d zd nc bs lr G self node Hb Hn) as [HG ->].
  clear Hb Hn. split; [done|].
  rewrite (L_G_node_spec G vs fd Xv yv n m) by done.
  split; intros ->; reflexivity.
Qed.

End Losses.

(** ** Rounding in the standard library's specification of floating point

    Rounding a mantissa that is not negative gives a zero, a number or an
    infinity of the sign asked for: never not-a-number. *)

Section Rounding.

Import SpecFloat.
Variables (prec emax : Z).










End Rounding.

(** ** The operations of [float32] on signs and zeros *)

Section Float32.

Import SpecFloat.








(** *** The number of rows as a [float32] *)






End Float32.

(** ** Sign and zeros of the reconstruction loss *)




Section Float32Loss.

Import SpecFloat.





End Float32Loss.

(** ** The optimisation steps *)

Lemma apply_gradients_frame opt gvs sess sess' v :
  apply_gradients opt gvs sess = Ok sess' →
  v ∉ gvs.*2 →
  variables sess' !! v = variables sess !! v.
Proof.
  revert sess. induction gvs as [|[g u] gvs IH]; intros sess H Hv.
  - cbn in H. apply Ok_inj in H as <-. reflexivity.
  - cbn [apply_gradients] in H. cbn in Hv.
    apply not_elem_of_cons in Hv as [Hne Hv].
    destruct (variables sess !! u) as [x|]; [|discriminate H].
    destruct (apply_dense opt u g x (slots sess)) as [x' sl'].
    rewrite (IH _ H Hv). cbn. by rewrite lookup_insert_ne.
Qed.

Section Steps.

Context `{ext : Externals}.

Lemma minimize_frame opt loss var_list sess fd sess' :
  minimize opt loss var_list sess fd = Ok sess' →
  changes_only var_list sess sess'.
Proof.
  unfold minimize. intros H v Hv.
  destruct (loss (variables sess) fd); [|discriminate H].
  cbn [mbind result_bind] in H.
  eapply apply_gradients_frame; [exact H|].
  by rewrite <- list_fmap_compose, list_fmap_id.
Qed.

Lemma changes_only_unchanged vars others sess sess' :
  changes_only vars sess sess' →
  (∀ v, v ∈ others → v ∉ vars) →
  unchanged others sess sess'.
Proof. intros H Hd v Hv. apply H. by apply Hd. Qed.

End Steps.

(** ** The entry points on a built object *)

Section EntryPoints.

Context `{ext : Externals}.
Variables (d zd nc bs : nat) (lr : R).

Lemma train_VAE_built G k Xv sess writer :
  G = 1%Z ∨ G = 2%Z →
  train_VAE (at_step (built d zd nc bs lr G) k) Xv sess writer =
  '(l, s, sess') ←
    run_train sess
      (minimize (AdamOptimizer lr) (recon_loss_node d zd)
         (get_variables (Encoder zd) ++ get_variables (Decoder zd)))
      (recon_loss_node d zd)
      (tf.summary_scalar "Reconstruct_Loss" (recon_loss_node d zd))
      {[ "X_inputs" := Xv ]};
  Ok (l, sess', logged writer s k).
Proof.
  intros [-> | ->]; destruct writer; reflexivity.
Qed.

Lemma train_GENERATOR_built G k Xv yv sess writer :
  G = 1%Z ∨ G = 2%Z →
  train_GENERATOR (at_step (built d zd nc bs lr G) k) Xv yv sess writer =
  '(l, s, sess') ←
    run_train sess
      (minimize (GradientDescentOptimizer lr) (L_G_node d zd nc G)
         (get_variables (Encoder zd)))
      (L_G_node d zd nc G)
      (tf.summary_scalar "Generator_Loss" (L_G_node d zd nc G))
      (<["y_labels" := yv]> {[ "X_inputs" := Xv ]});
  Ok (l, sess', logged writer s k).
Proof.
  intros [-> | ->]; destruct writer; reflexivity.
Qed.

Lemma train_DISCRIMINATOR_built G k Xv yv sess writer rng :
  G = 1%Z ∨ G = 2%Z →
  train_DISCRIMINATOR (at_step (built d zd nc bs lr G) k) Xv yv sess writer rng =
  let '(p_z, rng') := standard_normal (bs, zd) rng in
  '(l, s, sess') ←
    run_train sess
      (minimize (AdamOptimizer lr) (L_D_node d zd nc)
         (cget_variables (Discriminator zd nc)))
      (L_D_node d zd nc)
      (tf.summary_scalar "Discriminator_Loss" (L_D_node d zd nc))
      (<["z_inputs" := p_z]> (<["y_labels" := yv]> {[ "X_inputs" := Xv ]}));
  Ok (l, sess', logged writer s k, rng').
Proof.
  intros [-> | ->]; destruct writer; reflexivity.
Qed.

Lemma get_latent_space_built G k sess Xv :
  G = 1%Z ∨ G = 2%Z →
  get_latent_space (at_step (built d zd nc bs lr G) k) sess Xv =
  run_fetch sess (apply_net (Encoder zd) (tf.read (X_ph d)) false)
    {[ "X_inputs" := Xv ]}.
Proof. intros [-> | ->]; reflexivity. Qed.

(** A training call evaluates the loss and its summary on the variables as
    they are, then runs the operation. *)
Lemma run_train_summary sess op loss tag fd :
  run_train sess op loss (tf.summary_scalar tag loss) fd =
  l ← loss (variables sess) fd;
  sess' ← op sess fd;
  Ok (l, (tag, l), sess').
Proof.
  unfold run_train, tf.summary_scalar, tf.lift1.
  by destruct (loss (variables sess) fd).
Qed.

End EntryPoints.

(** ** Frame of the three steps *)

Section Frame.

Context `{ext : Externals}.
Variables (d zd nc bs : nat) (lr : R).

Lemma run_train_op sess op loss summary fd l s sess' :
  run_train sess op loss summary fd = Ok (l, s, sess') →
  op sess fd = Ok sess'.
Proof.
  unfold run_train. intros H.
  destruct (loss (variables sess) fd); [|discriminate H].
  destruct (summary (variables sess) fd); [|discriminate H].
  cbn [mbind result_bind] in H.
  destruct (op sess fd); [|discriminate H].
  cbn [mbind result_bind] in H. by injection H as _ _ ->.
Qed.

(** C4. On a built object, at whatever value the caller has set the step
    counter, every call of the generator step changes variables of the
    encoder only, every call of the discriminator step variables of the
    discriminator only, every call of the reconstruction step variables of
    the encoder and of the decoder only; the three networks owning disjoint
    variables, the other networks' parameters are unchanged. *)
Theorem steps_change_only_their_parameters G self0 k :
  build (fresh d zd nc bs lr) G = Ok self0 →
  let self := at_step self0 k in
  let enc := get_variables (Encoder zd) in
  let dec := get_variables (Decoder zd) in
  let disc := cget_variables (Discriminator zd nc) in
  enc ## dec → enc ## disc → dec ## disc →
  (∀ Xv yv sess w l sess' w',
     train_GENERATOR self Xv yv sess w = Ok (l, sess', w') →
     changes_only enc sess sess' ∧
     unchanged disc sess sess' ∧ unchanged dec sess sess') ∧
  (∀ Xv yv sess w rng l sess' w' rng',
     train_DISCRIMINATOR self Xv yv sess w rng = Ok (l, sess', w', rng') →
     changes_only disc sess sess' ∧
     unchanged enc sess sess' ∧ unchanged dec sess sess') ∧
  (∀ Xv sess w l sess' w',
     train_VAE self Xv sess w = Ok (l, sess', w') →
     changes_only (enc ++ dec) sess sess' ∧ unchanged disc sess sess').
Proof.
  intros Hb self enc dec disc Hed Hedi Hddi.
  apply build_cases in Hb as [HG ->]. subst self.
  rewrite elem_of_disjoint in Hed, Hedi, Hddi.
  split; [|split].
  - intros Xv yv sess w l sess' w' H.
    rewrite train_GENERATOR_built in H by done.
    destruct (run_train _ _ _ _ _) as [[[l0 s0] sess0]|] eqn:E;
      [|discriminate H].
    cbn [mbind result_bind] in H. injection H as _ <- _.
    apply run_train_op, minimize_frame in E.
    split; [exact E|].
    split; eapply changes_only_unchanged; eauto; intros v Hv Hv'; eauto.
  - intros Xv yv sess w rng l sess' w' rng' H.
    rewrite train_DISCRIMINATOR_built in H by done.
    destruct (standard_normal (bs, zd) rng) as [p_z rng1].
    destruct (run_train _ _ _ _ _) as [[[l0 s0] sess0]|] eqn:E;
      [|discriminate H].
    cbn [mbind result_bind] in H. injection H as _ <- _ _.
    apply run_train_op, minimize_frame in E.
    split; [exact E|].
    split; eapply changes_only_unchanged; eauto; intros v Hv Hv'; eauto.
  - intros Xv sess w l sess' w' H.
    rewrite train_VAE_built in H by done.
    destruct (run_train _ _ _ _ _) as [[[l0 s0] sess0]|] eqn:E;
      [|discriminate H].
    cbn [mbind result_bind] in H. injection H as _ <- _.
    apply run_train_op, minimize_frame in E.
    split; [exact E|].
    eapply changes_only_unchanged; eauto.
    intros v Hv Hv'. apply elem_of_app in Hv' as [Hv'|Hv']; eauto.
Qed.

End Frame.

(** ** The entry points *)

(** A placeholder that was read was fed what was read. *)
Lemma read_Ok p (vs : var_store) (fd : feed_dict) (t : matrix) :
  tf.read p vs fd = Ok t → fd !! ph_name p = Some t.
Proof.
  unfold tf.read. destruct (fd !! ph_name p) as [t'|]; [|discriminate].
  destruct (forallb _ t'); [|discriminate]. intros H. by apply Ok_inj in H as ->.
Qed.

Section Protocol.

Context `{ext : Externals}.
Variables (d zd nc bs : nat) (lr : R).

(** C7. A call of [train_DISCRIMINATOR] on a built object draws one batch
    from the standard-normal sampler with shape (batch_size, z_dim) at the
    current random state and leaves the state the sampler returns, so that
    the next call draws anew; it feeds the batch to [z_inputs], where it
    is the prior from which the true logits are computed; and it runs the
    discriminator step once, on that feed. Whenever that step returns, the
    call returns, with the session the step leaves and the discriminator
    loss of the feed at the variables before the step; and a call that
    returns has run the step and returned these. That the step returns is
    not claimed: it reads variables and accumulators that have to be
    initialised. The fed batches have the widths of their placeholders and
    the two logit batches have one shape. *)
Theorem train_DISCRIMINATOR_draws_feeds_steps_returns
    G self0 k (Xv yv : matrix) sess writer rng (p_z : matrix) rng1 n m :
  build (fresh d zd nc bs lr) G = Ok self0 →
  standard_normal (bs, zd) rng = (p_z, rng1) →
  let disc_step :=
    minimize (AdamOptimizer lr) (L_D_node d zd nc)
      (cget_variables (Discriminator zd nc)) in
  let fd : feed_dict :=
    <["z_inputs" := p_z]> (<["y_labels" := yv]> {[ "X_inputs" := Xv ]}) in
  let true_logits := true_logits_at zd nc (variables sess) p_z yv in
  let fake_logits := fake_logits_at zd nc (variables sess) Xv yv in
  let loss := spec_L_D TINY n m true_logits fake_logits in
  Forall (fun row => length row = d) Xv →
  Forall (fun row => length row = (nc + 1)%nat) yv →
  has_shape bs zd p_z →
  has_shape n m true_logits → has_shape n m fake_logits →
  get_op self0 "disc_train_op" = Ok disc_step ∧
  (∀ sess',
     disc_step sess fd = Ok sess' →
     train_DISCRIMINATOR (at_step self0 k) Xv yv sess writer rng =
     Ok (loss, sess', logged writer ("Discriminator_Loss", loss) k, rng1)) ∧
  (∀ l sess' writer' rng',
     train_DISCRIMINATOR (at_step self0 k) Xv yv sess writer rng =
     Ok (l, sess', writer', rng') →
     disc_step sess fd = Ok sess' ∧ l = loss ∧
     writer' = logged writer ("Discriminator_Loss", loss) k ∧ rng' = rng1).
Proof.
  intros Hb Hs disc_step fd true_logits fake_logits loss HX Hy Hz Ht Hf.
  apply build_cases in Hb as [HG ->].
  split; [apply (built_attrs d zd nc bs lr G HG)|].
  assert (HL : L_D_node d zd nc (variables sess) fd = Ok loss).
  { apply (L_D_node_spec d zd nc (variables sess) fd Xv yv p_z n m);
      [split; [reflexivity|exact HX] | split; [reflexivity|exact Hy]
      | split; [reflexivity|apply Hz] | exact Ht | exact Hf]. }
  assert (Hrun :
    train_DISCRIMINATOR (at_step (built d zd nc bs lr G) k) Xv yv sess writer
      rng =
    sess' ← disc_step sess fd;
    Ok (loss, sess', logged writer ("Discriminator_Loss", loss) k, rng1)).
  { rewrite train_DISCRIMINATOR_built by done. rewrite Hs.
    rewrite run_train_summary. fold fd. rewrite HL. cbn [mbind result_bind].
    fold disc_step. by destruct (disc_step sess fd). }
  rewrite Hrun. clear Hrun HL. split.
  - intros sess' ->. reflexivity.
  - intros l sess' writer' rng' H.
    destruct (disc_step sess fd) as [s|]; [|discriminate H].
    cbn [mbind result_bind] in H. apply Ok_inj in H.
    by injection H as <- <- <- <-.
Qed.

End Protocol.

(** ** The step counter *)

Section StepCounter.

Context `{ext : Externals}.
Variables (d zd nc bs : nat) (lr : R).

Lemma at_step_built_0 G :
  G = 1%Z ∨ G = 2%Z →
  at_step (built d zd nc bs lr G) 0 = built d zd nc bs lr G.
Proof.
  intros HG. unfold at_step, setattr. apply insert_id.
  destruct HG as [-> | ->]; reflexivity.
Qed.

(** C9. The step counter is an integer that [__init__] sets to 0 and
    [build] leaves alone; whatever value the caller gives it afterwards,
    every training entry point does what it does without a writer, and
    adds to the writer it is given one record, the summary of the loss,
    tagged with that value: the counter reaches the writer and nothing
    else. *)
Theorem step_only_tags_summaries G self0 k :
  build (fresh d zd nc bs lr) G = Ok self0 →
  get_int (fresh d zd nc bs lr) "step" = Ok 0%Z ∧
  get_int self0 "step" = Ok 0%Z ∧
  get_int (at_step self0 k) "step" = Ok k ∧
  (∀ Xv sess writer,
     train_VAE (at_step self0 k) Xv sess writer =
     '(l, sess', _) ← train_VAE self0 Xv sess None;
     Ok (l, sess', logged writer ("Reconstruct_Loss", l) k)) ∧
  (∀ Xv yv sess writer,
     train_GENERATOR (at_step self0 k) Xv yv sess writer =
     '(l, sess', _) ← train_GENERATOR self0 Xv yv sess None;
     Ok (l, sess', logged writer ("Generator_Loss", l) k)) ∧
  (∀ Xv yv sess writer rng,
     train_DISCRIMINATOR (at_step self0 k) Xv yv sess writer rng =
     '(l, sess', _, rng') ← train_DISCRIMINATOR self0 Xv yv sess None rng;
     Ok (l, sess', logged writer ("Discriminator_Loss", l) k, rng')).
Proof.
  intros Hb. apply build_cases in Hb as [HG ->].
  split; [reflexivity|].
  split; [apply (built_config d zd nc bs lr G HG)|].
  split; [unfold get_int, at_step; by rewrite getattr_setattr_eq|].
  split; [|split].
  - intros Xv sess writer.
    rewrite <- (at_step_built_0 G HG) at 2.
    rewrite !train_VAE_built, !run_train_summary by done.
    destruct (recon_loss_node d zd _ _); [|reflexivity].
    cbn [mbind result_bind].
    by destruct (minimize _ _ _ _ _).
  - intros Xv yv sess writer.
    rewrite <- (at_step_built_0 G HG) at 2.
    rewrite !train_GENERATOR_built, !run_train_summary by done.
    destruct (L_G_node d zd nc G _ _); [|reflexivity].
    cbn [mbind result_bind].
    by destruct (minimize _ _ _ _ _).
  - intros Xv yv sess writer rng.
    rewrite <- (at_step_built_0 G HG) at 2.
    rewrite !train_DISCRIMINATOR_built by done.
    destruct (standard_normal (bs, zd) rng) as [p_z rng1].
    rewrite !run_train_summary.
    destruct (L_D_node d zd nc _ _); [|reflexivity].
    cbn [mbind result_bind].
    by destruct (minimize _ _ _ _ _).
Qed.

End StepCounter.

(** ** A generator-loss variant that is neither 1 nor 2 *)

Section OtherVariant.

Context `{ext : Externals}.
Variables (d zd nc bs : nat) (lr : R).

(** C10, amended. With [G_type] neither 1 nor 2, [build] on a fresh object
    fails with [AttributeError] on [L_G]: the reconstruction subgraph is
    built, and [_build_GAN_network] raises when it reads the loss that no
    branch assigned, for the summary of the generator loss; the call never
    reaches [_build_train_ops]. *)
Theorem build_fails_reading_L_G G :
  G ≠ 1%Z → G ≠ 2%Z →
  ∃ s1,
    _build_VAE_network (fresh d zd nc bs lr) = Ok s1 ∧
    s1 !! "L_G" = None ∧
    _build_GAN_network s1 G = Raise (AttributeError "L_G") ∧
    build (fresh d zd nc bs lr) G = Raise (AttributeError "L_G").
Proof.
  intros H1 H2. exists (vae_built d zd nc bs lr).
  split; [apply vae_built_ok|]. split; [reflexivity|].
  split; [by apply _build_GAN_network_other|by apply build_other].
Qed.

Lemma not_fails_in_train_ops G :
  G ≠ 1%Z → G ≠ 2%Z → ¬ fails_in_train_ops (fresh d zd nc bs lr) G.
Proof.
  intros H1 H2 (s1 & s2 & e & Hv & Hg & _).
  rewrite vae_built_ok in Hv. apply Ok_inj in Hv as <-.
  rewrite _build_GAN_network_other in Hg by done. discriminate Hg.
Qed.

End OtherVariant.

(** * Further properties of the entry points *)

Section BeforeBuild.

Context `{ext : Externals}.
Variables (d zd nc bs : nat) (lr : R).

(** X1. On an object that was constructed and not built, at whatever step,
    every entry point raises [AttributeError] on the first attribute of the
    graph that it reads. *)
Theorem entry_points_before_build_raise k Xv yv sess writer rng q_z :
  let self := at_step (fresh d zd nc bs lr) k in
  train_VAE self Xv sess writer = Raise (AttributeError "vae_train_op") ∧
  train_GENERATOR self Xv yv sess writer =
    Raise (AttributeError "gen_train_op") ∧
  train_DISCRIMINATOR self Xv yv sess writer rng =
    Raise (AttributeError "disc_train_op") ∧
  get_latent_space self sess Xv = Raise (AttributeError "latent_space") ∧
  get_reconstructed_images self sess Xv =
    Raise (AttributeError "recon_imgs") ∧
  get_generated_images self sess q_z rng =
    Raise (AttributeError "generated_imgs").
Proof.
  intros self. subst self. repeat split; try reflexivity.
  - change (train_DISCRIMINATOR (at_step (fresh d zd nc bs lr) k) Xv yv sess
              writer rng)
      with (let '(p_z, rng') := standard_normal (bs, zd) rng in
            @Raise (fval * Session * option FileWriter * RandomState)
              (AttributeError "disc_train_op")).
    by destruct (standard_normal (bs, zd) rng).
  - destruct q_z; [reflexivity|].
    change (get_generated_images (at_step (fresh d zd nc bs lr) k) sess None
              rng)
      with ('(q, r) ← Ok (standard_normal (bs, zd) rng);
            @Raise (matrix * Session * RandomState)
              (AttributeError "generated_imgs")).
    cbn [mbind result_bind]. by destruct (standard_normal (bs, zd) rng).
Qed.

End BeforeBuild.

Section Inference.

Context `{ext : Externals}.
Variables (d zd nc bs : nat) (lr : R).

Lemma get_reconstructed_images_built G k sess Xv :
  G = 1%Z ∨ G = 2%Z →
  get_reconstructed_images (at_step (built d zd nc bs lr G) k) sess Xv =
  run_fetch sess (recon_imgs_node d zd) {[ "X_inputs" := Xv ]}.
Proof. intros [-> | ->]; reflexivity. Qed.

Lemma get_generated_images_built G k sess q_z rng :
  G = 1%Z ∨ G = 2%Z →
  get_generated_images (at_step (built d zd nc bs lr G) k) sess q_z rng =
  let '(z, rng') :=
    match q_z with
    | None => standard_normal (bs, zd) rng
    | Some z => (z, rng)
    end in
  '(imgs, sess') ←
    run_fetch sess (apply_net (Decoder zd) (tf.read (z_ph zd)) false)
      {[ "z_inputs" := z ]};
  Ok (imgs, sess', rng').
Proof.
  intros [-> | ->]; destruct q_z; try reflexivity.
  all: change (get_generated_images _ sess None rng)
    with ('(z, rng') ← Ok (standard_normal (bs, zd) rng);
          '(imgs, sess') ←
            run_fetch sess (apply_net (Decoder zd) (tf.read (z_ph zd)) false)
              {[ "z_inputs" := z ]};
          Ok (imgs, sess', rng')).
  all: cbn [mbind result_bind]; by destruct (standard_normal (bs, zd) rng).
Qed.

(** X2. On a built object, a call of [get_reconstructed_images] that returns
    has returned the session as it was and the reconstruction of the
    training subgraph: encoder and decoder are both applied with
    [is_training = True], where a call of [get_latent_space] that returns
    has applied the encoder with [is_training = False]. *)
Theorem get_reconstructed_images_uses_training_subgraph
    G self0 k (Xv : matrix) sess :
  build (fresh d zd nc bs lr) G = Ok self0 →
  let self := at_step self0 k in
  let vs := variables sess in
  (∀ out sess',
     get_reconstructed_images self sess Xv = Ok (out, sess') →
     out = call (Decoder zd) vs (call (Encoder zd) vs Xv true) true ∧
     sess' = sess) ∧
  (∀ out sess',
     get_latent_space self sess Xv = Ok (out, sess') →
     out = call (Encoder zd) vs Xv false ∧ sess' = sess).
Proof.
  intros Hb self vs. apply build_cases in Hb as [HG ->]. subst self vs.
  split; intros out sess' H.
  - rewrite get_reconstructed_images_built in H by done.
    unfold run_fetch, recon_imgs_node, q_z_node, apply_net in H.
    destruct (tf.read (X_ph d) (variables sess) _) as [a|] eqn:E;
      [|discriminate H].
    apply read_Ok in E. cbn in E. rewrite lookup_singleton_eq in E.
    apply (inj Some) in E as <-.
    cbn [mbind result_bind] in H. apply Ok_inj in H. by injection H as <- <-.
  - rewrite get_latent_space_built in H by done.
    unfold run_fetch, apply_net in H.
    destruct (tf.read (X_ph d) (variables sess) _) as [a|] eqn:E;
      [|discriminate H].
    apply read_Ok in E. cbn in E. rewrite lookup_singleton_eq in E.
    apply (inj Some) in E as <-.
    cbn [mbind result_bind] in H. apply Ok_inj in H. by injection H as <- <-.
Qed.

(** X3. On a built object, a call of [get_generated_images] on a latent
    batch that returns has returned the decoder in inference mode applied
    to the batch, and the session and the random state as they were; called
    without a latent batch it does what it does on the batch that the
    sampler draws with shape (batch_size, z_dim), and leaves the random
    state that the sampler returns. *)
Theorem get_generated_images_given_or_drawn
    G self0 k sess rng (z : matrix) rng1 :
  build (fresh d zd nc bs lr) G = Ok self0 →
  let self := at_step self0 k in
  (∀ out sess' rng',
     get_generated_images self sess (Some z) rng = Ok (out, sess', rng') →
     out = call (Decoder zd) (variables sess) z false ∧
     sess' = sess ∧ rng' = rng) ∧
  (standard_normal (bs, zd) rng = (z, rng1) →
   get_generated_images self sess None rng =
   get_generated_images self sess (Some z) rng1).
Proof.
  intros Hb self. apply build_cases in Hb as [HG ->]. subst self.
  split.
  - intros out sess' rng' H. rewrite get_generated_images_built in H by done.
    unfold run_fetch, apply_net in H.
    destruct (tf.read (z_ph zd) (variables sess) _) as [a|] eqn:E;
      [|discriminate H].
    apply read_Ok in E. cbn in E. rewrite lookup_singleton_eq in E.
    apply (inj Some) in E as <-.
    cbn [mbind result_bind] in H. apply Ok_inj in H.
    by injection H as <- <- <-.
  - intros Hs. rewrite !get_generated_images_built by done.
    by rewrite Hs.
Qed.

(** X4. On a built object, the discriminator loss cannot be evaluated on a
    feed that gives no [z_inputs], such as the feed of [train_GENERATOR]:
    where the generator loss evaluates, the discriminator loss raises on
    the placeholder that is not fed. *)
Theorem L_D_needs_z_inputs
    G self node_D node_G (vs : var_store) (fd : feed_dict) l :
  build (fresh d zd nc bs lr) G = Ok self →
  get_scalar self "L_D" = Ok node_D →
  get_scalar self "L_G" = Ok node_G →
  node_G vs fd = Ok l →
  fd !! "z_inputs" = None →
  node_D vs fd = Raise (InvalidArgumentError "z_inputs").
Proof.
  intros Hb HD HG _ Hz.
  rewrite (build_L_D d zd nc bs lr G self node_D Hb HD).
  clear Hb HD HG.
  unfold L_D_node, tf.negative, tf.reduce_mean, tf.add, tf.log,
    tf.add_scalar, tf.sigmoid, tf.lift1, tf.lift2, true_logits_node,
    apply_cnet, tf.read.
  cbn [ph_name z_ph tf.placeholder]. by rewrite Hz.
Qed.

End Inference.

(** ** The reconstruction and generator steps *)

Lemma apply_gradients_GD lr gvs sess sess' :
  apply_gradients (GradientDescentOptimizer lr) gvs sess = Ok sess' →
  slots sess' = slots sess ∧
  (NoDup gvs.*2 →
   ∀ g v x, (g, v) ∈ gvs → variables sess !! v = Some x →
     variables sess' !! v =
     Some (zip_with (zip_with (fun xv gv => fsub xv (fmul (Finite lr) gv)))
             x g)).
Proof.
  revert sess. induction gvs as [|[g0 u] gvs IH]; intros sess H.
  - cbn in H. apply Ok_inj in H as <-. split; [reflexivity|].
    intros _ g v x Hin. by apply elem_of_nil in Hin.
  - cbn [apply_gradients] in H.
    destruct (variables sess !! u) as [x0|] eqn:Hu; [|discriminate H].
    cbn [apply_dense GradientDescentOptimizer] in H.
    pose proof (apply_gradients_frame _ _ _ _ u H) as Hframe.
    destruct (IH _ H) as [Hs Hv]. cbn [slots variables] in *.
    split; [exact Hs|].
    intros Hnd g v x Hin Hx. cbn in Hnd. apply NoDup_cons in Hnd as [Hnu Hnd].
    apply elem_of_cons in Hin as [Heq|Hin].
    + injection Heq as -> ->. rewrite Hframe by exact Hnu.
      rewrite lookup_insert_eq. congruence.
    + apply (Hv Hnd g v x Hin).
      assert (u ≠ v).
      { intros ->. apply Hnu. apply list_elem_of_fmap. by exists (g, v). }
      by rewrite lookup_insert_ne.
Qed.

Section TrainingSteps.

Context `{ext : Externals}.
Variables (d zd nc bs : nat) (lr : R).

(** X5. On a built object, the generator step is plain gradient descent on
    the variables of the encoder: a call of [train_GENERATOR] that returns
    leaves each of them at its value minus the learning rate times the
    gradient of the generator loss, taken at the variables and the feed of
    the call, and leaves the accumulators of the optimisers as they were. *)
Theorem train_GENERATOR_is_gradient_descent
    G self0 k node (Xv yv : matrix) sess writer l sess' writer' :
  build (fresh d zd nc bs lr) G = Ok self0 →
  get_scalar self0 "L_G" = Ok node →
  train_GENERATOR (at_step self0 k) Xv yv sess writer =
    Ok (l, sess', writer') →
  NoDup (get_variables (Encoder zd)) →
  let fd : feed_dict := <["y_labels" := yv]> {[ "X_inputs" := Xv ]} in
  slots sess' = slots sess ∧
  ∀ v x, v ∈ get_variables (Encoder zd) → variables sess !! v = Some x →
    variables sess' !! v =
    Some (zip_with (zip_with (fun xv gv => fsub xv (fmul (Finite lr) gv)))
            x (gradients node v (variables sess) fd)).
Proof.
  intros Hb Hn H Hnd fd.
  destruct (build_L_G d zd nc bs lr G self0 node Hb Hn) as [HG ->].
  apply build_cases in Hb as [_ ->]. clear Hn.
  rewrite train_GENERATOR_built in H by done.
  destruct (run_train _ _ _ _ _) as [[[l0 s0] sess0]|] eqn:E;
    [|discriminate H].
  cbn [mbind result_bind] in H. injection H as _ <- _.
  apply run_train_op in E. unfold minimize in E.
  destruct (L_G_node d zd nc G (variables sess) _); [|discriminate E].
  cbn [mbind result_bind] in E.
  apply apply_gradients_GD in E as [Hs Hv]. split; [exact Hs|].
  intros v x Hin Hx. apply Hv; [|by apply list_elem_of_fmap; exists v|exact Hx].
  by rewrite <- list_fmap_compose, list_fmap_id.
Qed.

(** X6. On a built object, a call of [train_VAE] that returns, on a batch
    whose reconstruction has the shape of the batch, has returned the mean
    over the batch of the summed squared error of the reconstruction as it
    is at the variables before the step, and has added one record of it to
    the writer. *)
Theorem train_VAE_returns_loss_before_step
    G self0 k (Xv : matrix) sess writer n l sess' writer' :
  build (fresh d zd nc bs lr) G = Ok self0 →
  train_VAE (at_step self0 k) Xv sess writer = Ok (l, sess', writer') →
  let recon := recon_at zd (variables sess) Xv in
  has_shape n d Xv → has_shape n d recon →
  l = spec_recon_loss n d recon Xv ∧
  writer' = logged writer ("Reconstruct_Loss", l) k.
Proof.
  intros Hb H recon HX Hr.
  apply build_cases in Hb as [HG ->].
  assert (Hfed : fed {[ "X_inputs" := Xv ]} (X_ph d) Xv)
    by (split; [reflexivity|apply HX]).
  rewrite train_VAE_built in H by done.
  rewrite run_train_summary in H.
  rewrite (recon_loss_node_spec d zd (variables sess) _ Xv n Hfed HX Hr) in H.
  cbn [mbind result_bind] in H.
  destruct (minimize _ _ _ sess _) as [s|]; [|discriminate H].
  cbn [mbind result_bind] in H. apply Ok_inj in H.
  by injection H as <- <- <-.
Qed.

(** X7. On a built object, a call of [train_GENERATOR] that returns, on
    batches of rows of the widths of [X] and [y_labels], has returned the
    generator loss of the variant that [build] was given, on the fake
    logits of the call at the variables before the step, and has added one
    record of it to the writer; it feeds no prior sample and draws none. *)
Theorem train_GENERATOR_returns_generator_loss
    G self0 k (Xv yv : matrix) sess writer n m l sess' writer' :
  build (fresh d zd nc bs lr) G = Ok self0 →
  train_GENERATOR (at_step self0 k) Xv yv sess writer =
    Ok (l, sess', writer') →
  let fake_logits := fake_logits_at zd nc (variables sess) Xv yv in
  Forall (fun row => length row = d) Xv →
  Forall (fun row => length row = (nc + 1)%nat) yv →
  has_shape n m fake_logits →
  l = (if (G =? 1)%Z then spec_L_G1 TINY n m fake_logits
       else spec_L_G2 TINY n m fake_logits) ∧
  writer' = logged writer ("Generator_Loss", l) k.
Proof.
  intros Hb H fake_logits HX Hy Hf.
  apply build_cases in Hb as [HG ->].
  rewrite train_GENERATOR_built in H by done.
  rewrite run_train_summary in H.
  rewrite (L_G_node_spec d zd nc G _ _ Xv yv n m) in H;
    [|split; [reflexivity|exact HX] | split; [reflexivity|exact Hy]
     | exact Hf].
  cbn [mbind result_bind] in H.
  destruct (minimize _ _ _ sess _) as [s|]; [|discriminate H].
  cbn [mbind result_bind] in H. apply Ok_inj in H.
  by injection H as <- <- <-.
Qed.

End TrainingSteps.

(** ** The two variants of the generator loss *)







Section Variants.

Context `{ext : Externals}.
Variables (d zd nc bs : nat) (lr : R).





End Variants.

(** ** Not-a-number, empty batches, incompatible shapes *)

Lemma fadd_NaN_r x : fadd x NaN = NaN.
Proof. by destruct x. Qed.

Lemma foldl_fadd_NaN (l : vector) : foldl fadd NaN l = NaN.
Proof. induction l as [|x l IH]; [reflexivity|]. exact IH. Qed.

Lemma sum_NaN (l : vector) : NaN ∈ l → kernel.sum l = NaN.
Proof.
  unfold kernel.sum. generalize (Finite 0).
  induction l as [|x l IH]; intros acc Hin.
  - by apply elem_of_nil in Hin.
  - cbn [foldl]. apply elem_of_cons in Hin as [<-|Hin].
    + rewrite fadd_NaN_r. apply foldl_fadd_NaN.
    + by apply IH.
Qed.

Lemma sum_range_NaN n f i : (i < n)%nat → f i = NaN → sum_range n f = NaN.
Proof.
  intros Hi Hf. unfold sum_range. apply sum_NaN. rewrite <- Hf.
  apply list_elem_of_fmap. exists i. split; [reflexivity|].
  apply list_elem_of_In, in_seq. lia.
Qed.

Lemma Rsgn_zero : Rsgn 0 = Zero.
Proof.
  unfold Rsgn. destruct (total_order_T 0 0) as [[?|?]|?]; try lra.
  reflexivity.
Qed.

Lemma mean_nil : kernel.mean [] = NaN.
Proof.
  unfold kernel.mean, kernel.sum, of_nat. cbn [foldl length INR fdiv].
  by rewrite Rsgn_zero.
Qed.

Lemma bcast_incompatible {A B} (f : A → A → result B) (xs ys : list A) :
  length xs ≠ length ys → length xs ≠ 1%nat → length ys ≠ 1%nat →
  kernel.bcast f xs ys = Raise (InvalidArgumentError "Incompatible shapes").
Proof.
  intros Hne Hx Hy. unfold kernel.bcast.
  apply Nat.eqb_neq in Hne. rewrite Hne.
  destruct xs as [|x [|x' xs]], ys as [|y [|y' ys]]; cbn in *; done.
Qed.

Section Edges.

Context `{ext : Externals}.
Variables (d zd nc bs : nat) (lr : R).

(** X12. A not-a-number anywhere in the batch or in its reconstruction makes
    the reconstruction loss not-a-number. *)
Theorem recon_loss_propagates_NaN
    G self node (vs : var_store) (fd : feed_dict) (Xv : matrix) n i j :
  build (fresh d zd nc bs lr) G = Ok self →
  get_scalar self "recon_loss" = Ok node →
  fed fd (X_ph d) Xv →
  has_shape n d Xv → has_shape n d (recon_at zd vs Xv) →
  (i < n)%nat → (j < d)%nat →
  entry Xv i j = NaN ∨ entry (recon_at zd vs Xv) i j = NaN →
  node vs fd = Ok NaN.
Proof.
  intros Hb Hn HX HsX Hsr Hi Hj Hnan.
  rewrite (build_recon_loss d zd nc bs lr G self node Hb Hn). clear Hb Hn.
  rewrite (recon_loss_node_spec d zd vs fd Xv n) by done.
  f_equal. unfold spec_recon_loss.
  rewrite (sum_range_NaN n _ i Hi); [reflexivity|].
  apply (sum_range_NaN d _ j Hj).
  destruct Hnan as [-> | ->]; [|reflexivity].
  unfold fsub. cbn [fneg]. by rewrite fadd_NaN_r.
Qed.

(** X13. On an empty batch the losses are not errors but not-a-number, the
    mean of nothing: the reconstruction loss when the networks return no
    row for no row, the two adversarial losses when there is no logit. *)
Theorem losses_of_empty_batch_are_NaN
    G self node_R node_D node_G (vs : var_store) (fd : feed_dict)
    (yv zv : matrix) :
  build (fresh d zd nc bs lr) G = Ok self →
  get_scalar self "recon_loss" = Ok node_R →
  get_scalar self "L_D" = Ok node_D →
  get_scalar self "L_G" = Ok node_G →
  fed fd (X_ph d) [] → fed fd (y_ph nc) yv → fed fd (z_ph zd) zv →
  recon_at zd vs [] = [] →
  fake_logits_at zd nc vs [] yv = [] →
  true_logits_at zd nc vs zv yv = [] →
  node_R vs fd = Ok NaN ∧ node_D vs fd = Ok NaN ∧ node_G vs fd = Ok NaN.
Proof.
  intros Hb HR HD HG HX Hy Hz Er Ef Et.
  rewrite (build_recon_loss d zd nc bs lr G self node_R Hb HR).
  rewrite (build_L_D d zd nc bs lr G self node_D Hb HD).
  destruct (build_L_G d zd nc bs lr G self node_G Hb HG) as [_ ->].
  clear Hb HR HD HG. split; [|split].
  - rewrite (recon_loss_eval d zd vs fd [] HX), Er.
    change (Ok (kernel.mean []) = Ok NaN). by rewrite mean_nil.
  - rewrite (L_D_eval d zd nc vs fd [] yv zv HX Hy Hz), Ef, Et.
    change (Ok (fneg (kernel.mean [])) = Ok NaN). by rewrite mean_nil.
  - rewrite (L_G_eval d zd nc vs fd [] yv HX Hy), Ef.
    change (Ok (if (G =? 1)%Z then kernel.mean [] else fneg (kernel.mean []))
            = Ok NaN).
    rewrite mean_nil. by destruct (G =? 1)%Z.
Qed.

End Edges.

(** ** What [build] assigns *)

Section Assigns.

Context `{ext : Externals}.













End Assigns.

(** ** Order of the stages, size of the batch *)

Section Order.

Context `{ext : Externals}.
Variables (d zd nc bs : nat) (lr : R).

(** X16. The stages of [build] depend on one another in the order [build]
    runs them: on a fresh object the adversarial stage fails for want of
    [q_z] and the stage of the train operations for want of [recon_loss];
    after the reconstruction stage alone, the stage of the train operations
    fails for want of [L_D]. *)
Theorem build_stages_are_ordered G :
  _build_GAN_network (fresh d zd nc bs lr) G = Raise (AttributeError "q_z") ∧
  _build_train_ops (fresh d zd nc bs lr) =
    Raise (AttributeError "recon_loss") ∧
  ∃ s1, _build_VAE_network (fresh d zd nc bs lr) = Ok s1 ∧
        _build_train_ops s1 = Raise (AttributeError "L_D").
Proof.
  split; [reflexivity|]. split; [reflexivity|].
  exists (vae_built d zd nc bs lr). split; reflexivity.
Qed.

(** X17. The prior sample has [batch_size] rows whatever the batch given to
    [train_DISCRIMINATOR]: when the true logits and the fake logits differ
    in their number of rows and neither has one row, the call fails, the
    two batches of logits being of incompatible shapes. *)
Theorem train_DISCRIMINATOR_batch_mismatch
    G self0 k (Xv yv : matrix) sess writer rng (p_z : matrix) rng1
    n m n' m' :
  build (fresh d zd nc bs lr) G = Ok self0 →
  standard_normal (bs, zd) rng = (p_z, rng1) →
  Forall (fun row => length row = d) Xv →
  Forall (fun row => length row = (nc + 1)%nat) yv →
  has_shape bs zd p_z →
  has_shape n m (true_logits_at zd nc (variables sess) p_z yv) →
  has_shape n' m' (fake_logits_at zd nc (variables sess) Xv yv) →
  n ≠ n' → n ≠ 1%nat → n' ≠ 1%nat →
  train_DISCRIMINATOR (at_step self0 k) Xv yv sess writer rng =
  Raise (InvalidArgumentError "Incompatible shapes").
Proof.
  intros Hb Hs HX Hy Hz [Ht _] [Hf _] Hne H1 H2.
  apply build_cases in Hb as [HG ->].
  rewrite train_DISCRIMINATOR_built by done. rewrite Hs.
  rewrite run_train_summary.
  rewrite (L_D_eval d zd nc (variables sess) _ Xv yv p_z);
    [|split; [reflexivity|exact HX] | split; [reflexivity|exact Hy]
     |split; [reflexivity|apply Hz]].
  unfold kernel.broadcast2.
  rewrite bcast_incompatible; [reflexivity|..];
    unfold kernel.map_elems; rewrite !length_map; lia.
Qed.

End Order.

(** ** The theorems on the small instance *)

#[local] Existing Instance Example.ext.

Lemma example_build G :
  G = 1%Z ∨ G = 2%Z → build Example.self0 G = Ok (Example.built0 G).
Proof. intros [-> | ->]; reflexivity. Defined.

Lemma example_shape (x : fval) : has_shape 1 1 [[x]].
Proof. split; [reflexivity|]. repeat constructor. Defined.

Lemma example_width (x : fval) :
  Forall (fun row : vector => length row = 1%nat) [[x]].
Proof. repeat constructor. Defined.

Lemma example_width_y :
  Forall (fun row : vector => length row = 3%nat) Example.y0.
Proof. repeat constructor. Defined.

Lemma recon_loss_is_mean_of_summed_squared_error_witness :
  recon_loss_node 1 1 ∅ (Example.fd_X Example.X0) =
  Ok (spec_recon_loss 1 1 (recon_at 1 ∅ Example.X0) Example.X0).
Proof.
  apply (recon_loss_is_mean_of_summed_squared_error
           1 1 2 1 (1 / 10) 1 (Example.built0 1) (recon_loss_node 1 1) ∅
           (Example.fd_X Example.X0) Example.X0 1).
  - apply example_build. by left.
  - reflexivity.
  - split; [reflexivity|apply example_width].
  - apply example_shape.
  - apply example_shape.
Defined.

Lemma L_D_is_minus_mean_of_log_terms_witness :
  L_D_node 1 1 2 ∅ (Example.fd_all Example.X0 [[NInf]]) =
  Ok (spec_L_D TINY 1 1 (true_logits_at 1 2 ∅ [[NInf]] Example.y0)
        (fake_logits_at 1 2 ∅ Example.X0 Example.y0)).
Proof.
  apply (L_D_is_minus_mean_of_log_terms
           1 1 2 1 (1 / 10) 1 (Example.built0 1) (L_D_node 1 1 2) ∅
           (Example.fd_all Example.X0 [[NInf]])
           Example.X0 Example.y0 [[NInf]] 1 1).
  - apply example_build. by left.
  - reflexivity.
  - split; [reflexivity|apply example_width].
  - split; [reflexivity|apply example_width_y].
  - split; [reflexivity|apply example_width].
  - apply example_shape.
  - apply example_shape.
Defined.

Lemma L_G_is_selected_by_G_type_witness :
  L_G_node 1 1 2 2 ∅ (Example.fd_all Example.X0 [[NInf]]) =
  Ok (spec_L_G2 TINY 1 1 (fake_logits_at 1 2 ∅ Example.X0 Example.y0)).
Proof.
  apply (L_G_is_selected_by_G_type
           1 1 2 1 (1 / 10) 2 (Example.built0 2) (L_G_node 1 1 2 2) ∅
           (Example.fd_all Example.X0 [[NInf]])
           Example.X0 Example.y0 1 1).
  - apply example_build. by right.
  - reflexivity.
  - split; [reflexivity|apply example_width].
  - split; [reflexivity|apply example_width_y].
  - apply example_shape.
  - reflexivity.
Defined.

Lemma example_disjoint (a b : string) : a ≠ b → [a] ## [b].
Proof.
  intros Hne. apply elem_of_disjoint. intros x Ha Hb.
  apply list_elem_of_singleton in Ha, Hb. congruence.
Defined.

Lemma steps_change_only_their_parameters_witness :
  ∃ l sess' w',
    train_GENERATOR (at_step (Example.built0 1) 7) Example.X0 Example.y0
      Example.sess0 None = Ok (l, sess', w') ∧
    changes_only ["encoder/w"] Example.sess0 sess' ∧
    unchanged ["discriminator/w"] Example.sess0 sess' ∧
    unchanged ["decoder/w"] Example.sess0 sess'.
Proof.
  assert (E : ∃ l sess' w',
    train_GENERATOR (at_step (Example.built0 1) 7) Example.X0 Example.y0
      Example.sess0 None = Ok (l, sess', w'))
    by (eexists _, _, _; reflexivity).
  destruct E as (l & sess' & w' & E). exists l, sess', w'.
  split; [exact E|].
  exact (proj1 (steps_change_only_their_parameters
                  1 1 2 1 (1 / 10) 1 (Example.built0 1) 7
                  (example_build 1 (or_introl eq_refl))
                  (example_disjoint "encoder/w" "decoder/w"
                     ltac:(discriminate))
                  (example_disjoint "encoder/w" "discriminator/w"
                     ltac:(discriminate))
                  (example_disjoint "decoder/w" "discriminator/w"
                     ltac:(discriminate)))
           Example.X0 Example.y0 Example.sess0 None l sess' w' E).
Defined.



Lemma recon_loss_overflows :
  binary32.recon_loss [[binary32.of_Z 1 100]] [[binary32.zero]] =
  Ok (SpecFloat.S754_infinity false).
Proof. reflexivity. Qed.




Lemma train_DISCRIMINATOR_draws_feeds_steps_returns_witness :
  let loss :=
    spec_L_D TINY 1 1
      (true_logits_at 1 2 (variables Example.sess0) [[Finite 0]] Example.y0)
      (fake_logits_at 1 2 (variables Example.sess0) Example.X0 Example.y0) in
  ∃ sess',
    minimize (AdamOptimizer (1 / 10)) (L_D_node 1 1 2)
      (cget_variables (Discriminator 1 2)) Example.sess0
      (Example.fd_all Example.X0 [[Finite 0]]) = Ok sess' ∧
    train_DISCRIMINATOR (at_step (Example.built0 1) 7) Example.X0 Example.y0
      Example.sess0 (Some []) Example.rng0 =
    Ok (loss, sess', logged (Some []) ("Discriminator_Loss", loss) 7,
        Example.rng1).
Proof.
  intros loss.
  assert (E : ∃ sess',
    minimize (AdamOptimizer (1 / 10)) (L_D_node 1 1 2)
      (cget_variables (Discriminator 1 2)) Example.sess0
      (Example.fd_all Example.X0 [[Finite 0]]) = Ok sess')
    by (eexists; reflexivity).
  destruct E as [sess' E]. exists sess'. split; [exact E|].
  exact (proj1 (proj2 (train_DISCRIMINATOR_draws_feeds_steps_returns
              1 1 2 1 (1 / 10) 1 (Example.built0 1) 7 Example.X0 Example.y0
              Example.sess0 (Some []) Example.rng0 [[Finite 0]] Example.rng1 1 1
              (example_build 1 (or_introl eq_refl)) eq_refl
              (example_width _) example_width_y (example_shape _)
              (example_shape _) (example_shape _))) sess' E).
Defined.

Lemma step_only_tags_summaries_witness :
  get_int (at_step (Example.built0 1) 7) "step" = Ok 7%Z ∧
  train_VAE (at_step (Example.built0 1) 7) Example.X0 Example.sess0 (Some []) =
  '(l, sess', _) ← train_VAE (Example.built0 1) Example.X0 Example.sess0 None;
  Ok (l, sess', logged (Some []) ("Reconstruct_Loss", l) 7).
Proof.
  destruct (step_only_tags_summaries
              1 1 2 1 (1 / 10) 1 (Example.built0 1) 7
              (example_build 1 (or_introl eq_refl)))
    as (_ & _ & Hstep & Hvae & _).
  split; [exact Hstep|apply Hvae].
Defined.

Lemma build_fails_reading_L_G_witness :
  build Example.self0 3 = Raise (AttributeError "L_G").
Proof.
  destruct (build_fails_reading_L_G 1 1 2 1 (1 / 10) 3
              ltac:(discriminate) ltac:(discriminate))
    as (s1 & _ & _ & _ & H).
  exact H.
Defined.

(** C10, as claimed: the failure would come from [_build_train_ops]. It does
    not: with [G_type = 3] the stage before it already raises. *)
Lemma build_fails_in_train_ops_counterexample :
  ¬ fails_in_train_ops Example.self0 3.
Proof. apply not_fails_in_train_ops; discriminate. Qed.

(** ** The further properties on the small instance *)

Lemma get_reconstructed_images_uses_training_subgraph_witness :
  ∃ out sess',
    get_reconstructed_images (at_step (Example.built0 1) 7) Example.sess0
      Example.X0 = Ok (out, sess') ∧
    out = call (Decoder 1) (variables Example.sess0)
            (call (Encoder 1) (variables Example.sess0) Example.X0 true) true ∧
    sess' = Example.sess0.
Proof.
  assert (E : ∃ out sess',
    get_reconstructed_images (at_step (Example.built0 1) 7) Example.sess0
      Example.X0 = Ok (out, sess'))
    by (eexists _, _; reflexivity).
  destruct E as (out & sess' & E). exists out, sess'. split; [exact E|].
  exact (proj1 (get_reconstructed_images_uses_training_subgraph
                  1 1 2 1 (1 / 10) 1 (Example.built0 1) 7 Example.X0
                  Example.sess0 (example_build 1 (or_introl eq_refl)))
           out sess' E).
Defined.

Lemma get_generated_images_given_or_drawn_witness :
  get_generated_images (at_step (Example.built0 1) 7) Example.sess0 None
    Example.rng0 =
  get_generated_images (at_step (Example.built0 1) 7) Example.sess0
    (Some [[Finite 0]]) Example.rng1.
Proof.
  apply (get_generated_images_given_or_drawn
           1 1 2 1 (1 / 10) 1 (Example.built0 1) 7 Example.sess0
           Example.rng0 [[Finite 0]] Example.rng1
           (example_build 1 (or_introl eq_refl))).
  reflexivity.
Defined.

Lemma L_D_needs_z_inputs_witness :
  L_D_node 1 1 2 ∅
    (<["y_labels" := Example.y0]> {[ "X_inputs" := Example.X0 ]}) =
  Raise (InvalidArgumentError "z_inputs").
Proof.
  assert (E : ∃ l,
    L_G_node 1 1 2 1 ∅
      (<["y_labels" := Example.y0]> {[ "X_inputs" := Example.X0 ]}) = Ok l)
    by (eexists; reflexivity).
  destruct E as [l E].
  exact (L_D_needs_z_inputs
           1 1 2 1 (1 / 10) 1 (Example.built0 1)
           (L_D_node 1 1 2) (L_G_node 1 1 2 1) ∅
           (<["y_labels" := Example.y0]> {[ "X_inputs" := Example.X0 ]}) l
           (example_build 1 (or_introl eq_refl)) eq_refl eq_refl E eq_refl).
Defined.

Lemma example_NoDup (a : string) : NoDup [a].
Proof. apply NoDup_singleton. Defined.

Lemma train_GENERATOR_is_gradient_descent_witness :
  ∃ l sess' w',
    train_GENERATOR (at_step (Example.built0 1) 7) Example.X0 Example.y0
      Example.sess0 None = Ok (l, sess', w') ∧
    slots sess' = slots Example.sess0 ∧
    variables sess' !! "encoder/w" =
    Some (zip_with
            (zip_with (fun xv gv => fsub xv (fmul (Finite (1 / 10)) gv)))
            [[Finite 1]]
            (gradients (L_G_node 1 1 2 1) "encoder/w"
               (variables Example.sess0)
               (<["y_labels" := Example.y0]> {[ "X_inputs" := Example.X0 ]}))).
Proof.
  assert (E : ∃ l sess' w',
    train_GENERATOR (at_step (Example.built0 1) 7) Example.X0 Example.y0
      Example.sess0 None = Ok (l, sess', w'))
    by (eexists _, _, _; reflexivity).
  destruct E as (l & sess' & w' & E). exists l, sess', w'.
  split; [exact E|].
  destruct (train_GENERATOR_is_gradient_descent
              1 1 2 1 (1 / 10) 1 (Example.built0 1) 7 (L_G_node 1 1 2 1)
              Example.X0 Example.y0 Example.sess0 None l sess' w'
              (example_build 1 (or_introl eq_refl)) eq_refl E
              (example_NoDup "encoder/w")) as [Hs Hv].
  split; [exact Hs|].
  apply Hv; [apply list_elem_of_here|reflexivity].
Defined.

Lemma train_VAE_returns_loss_before_step_witness :
  ∃ l sess' w',
    train_VAE (at_step (Example.built0 1) 7) Example.X0 Example.sess0 None =
    Ok (l, sess', w') ∧
    l = spec_recon_loss 1 1 (recon_at 1 (variables Example.sess0) Example.X0)
          Example.X0 ∧
    w' = logged None ("Reconstruct_Loss", l) 7.
Proof.
  assert (E : ∃ l sess' w',
    train_VAE (at_step (Example.built0 1) 7) Example.X0 Example.sess0 None =
    Ok (l, sess', w'))
    by (eexists _, _, _; reflexivity).
  destruct E as (l & sess' & w' & E). exists l, sess', w'.
  split; [exact E|].
  exact (train_VAE_returns_loss_before_step
           1 1 2 1 (1 / 10) 1 (Example.built0 1) 7 Example.X0 Example.sess0
           None 1 l sess' w' (example_build 1 (or_introl eq_refl)) E
           (example_shape _) (example_shape _)).
Defined.

Lemma train_GENERATOR_returns_generator_loss_witness :
  ∃ l sess' w',
    train_GENERATOR (at_step (Example.built0 2) 7) Example.X0 Example.y0
      Example.sess0 None = Ok (l, sess', w') ∧
    l = spec_L_G2 TINY 1 1
          (fake_logits_at 1 2 (variables Example.sess0) Example.X0
             Example.y0) ∧
    w' = logged None ("Generator_Loss", l) 7.
Proof.
  assert (E : ∃ l sess' w',
    train_GENERATOR (at_step (Example.built0 2) 7) Example.X0 Example.y0
      Example.sess0 None = Ok (l, sess', w'))
    by (eexists _, _, _; reflexivity).
  destruct E as (l & sess' & w' & E). exists l, sess', w'.
  split; [exact E|].
  exact (train_GENERATOR_returns_generator_loss
           1 1 2 1 (1 / 10) 2 (Example.built0 2) 7 Example.X0 Example.y0
           Example.sess0 None 1 1 l sess' w'
           (example_build 2 (or_intror eq_refl)) E
           (example_width _) example_width_y (example_shape _)).
Defined.


Lemma example_fed_y (Xv zv : matrix) :
  fed (Example.fd_all Xv zv) (y_ph 2) Example.y0.
Proof. split; [reflexivity|apply example_width_y]. Defined.



Lemma recon_loss_propagates_NaN_witness :
  recon_loss_node 1 1 ∅ (Example.fd_X [[NaN]]) = Ok NaN.
Proof.
  apply (recon_loss_propagates_NaN
           1 1 2 1 (1 / 10) 1 (Example.built0 1) (recon_loss_node 1 1) ∅
           (Example.fd_X [[NaN]]) [[NaN]] 1 0 0
           (example_build 1 (or_introl eq_refl)) eq_refl).
  - split; [reflexivity|apply example_width].
  - apply example_shape.
  - apply example_shape.
  - lia.
  - lia.
  - by left.
Defined.

Lemma example_fed_nil (fd : feed_dict) p :
  fd !! ph_name p = Some [] → fed fd p [].
Proof. intros H. split; [exact H|constructor]. Defined.

Lemma losses_of_empty_batch_are_NaN_witness :
  recon_loss_node 1 1 ∅ (Example.fd_all [] []) = Ok NaN ∧
  L_D_node 1 1 2 ∅ (Example.fd_all [] []) = Ok NaN ∧
  L_G_node 1 1 2 1 ∅ (Example.fd_all [] []) = Ok NaN.
Proof.
  apply (losses_of_empty_batch_are_NaN
           1 1 2 1 (1 / 10) 1 (Example.built0 1) (recon_loss_node 1 1)
           (L_D_node 1 1 2) (L_G_node 1 1 2 1) ∅ (Example.fd_all [] [])
           Example.y0 []
           (example_build 1 (or_introl eq_refl)) eq_refl eq_refl eq_refl
           (example_fed_nil (Example.fd_all [] []) (X_ph 1) eq_refl) (example_fed_y _ _)
           (example_fed_nil (Example.fd_all [] []) (z_ph 1) eq_refl) eq_refl eq_refl eq_refl).
Defined.


Lemma train_DISCRIMINATOR_batch_mismatch_witness :
  train_DISCRIMINATOR (at_step (built 1 1 2 2 (1 / 10) 1) 7)
    [[Finite 1]; [Finite 2]; [Finite 3]]
    (Example.y0 ++ Example.y0 ++ Example.y0)
    Example.sess0 None Example.rng0 =
  Raise (InvalidArgumentError "Incompatible shapes").
Proof.
  apply (train_DISCRIMINATOR_batch_mismatch
           1 1 2 2 (1 / 10) 1 (built 1 1 2 2 (1 / 10) 1) 7
           [[Finite 1]; [Finite 2]; [Finite 3]]
           (Example.y0 ++ Example.y0 ++ Example.y0)
           Example.sess0 None Example.rng0
           [[Finite 0]; [Finite 0]] Example.rng1 2 1 3 1 eq_refl eq_refl).
  - repeat constructor.
  - repeat constructor.
  - split; [reflexivity|repeat constructor].
  - split; [reflexivity|repeat constructor].
  - split; [reflexivity|repeat constructor].
  - lia.
  - lia.
  - lia.
Defined.
